(** * Stock processing: a shallow embedding of [stock/stock_processor.py]

    The development follows the Python module closely:

    - [PyFloat] models the built-in [float] as an IEEE-754 binary64 value
      ([spec_float] of the standard library with [prec = 53] and
      [emax = 1024]), together with the three built-in conversions the
      module relies on: [float(int)], [float(str)] and [round(x, 2)].
    - [value] is the universe of Python objects a caller can put in the
      product list, and [printable] tells which of them [str] and [repr]
      can render: an integer of more than 4300 decimal digits makes them
      raise ValueError.
    - [Run] is the small state-and-exception monad in which the body of
      the [for] loop of [process_stock] is written; the accumulators of
      the function and the logger are the state.  Every logger call
      formats its f-string first, and the formatting can raise.
    - [process_stock] and [process_stock_legacy] are the two entry points.

    The recursion depth and the memory of the interpreter are not
    modelled: the theorems about results are stated for the calls that
    return. *)

From Stdlib Require Import ZArith List String Ascii Bool Lia Permutation.
From Stdlib Require Import Floats.SpecFloat.
Import ListNotations.

Local Open Scope Z_scope.

(* ------------------------------------------------------------------ *)
(** ** Python floats *)

Module PyFloat.

Definition prec : Z := 53.
Definition emax : Z := 1024.

Definition float : Type := spec_float.

Definition nan : float := S754_nan.
Definition zero : float := S754_zero false.
Definition inf : float := S754_infinity false.

Definition add : float -> float -> float := SFadd prec emax.
Definition mul : float -> float -> float := SFmul prec emax.

(** [x < y], [x <= y] and [x >= y] as Python evaluates them: every
    comparison with NaN is [False]. *)
Definition lt (x y : float) : bool := SFltb x y.
Definition le (x y : float) : bool := SFleb x y.
Definition ge (x y : float) : bool := SFleb y x.

Definition is_nan (x : float) : bool :=
  match x with S754_nan => true | _ => false end.

Definition is_finite (x : float) : bool :=
  match x with S754_zero _ | S754_finite _ _ _ => true | _ => false end.

(** [float(n)] for an [int]: the nearest double, ties to even;
    [None] stands for [OverflowError] (int too large to convert). *)
Definition of_int (n : Z) : option float :=
  match binary_normalize prec emax n 0 false with
  | S754_infinity _ => None
  | f => Some f
  end.

(** The double nearest to [(-1)^s * m * 10^e10], ties to even.  For a
    negative decimal exponent the quotient is computed with at least 64
    bits and a sticky bit, so that the final rounding to 53 bits is the
    rounding of the exact value. *)
Definition of_decimal (s : bool) (m : Z) (e10 : Z) : float :=
  if m <=? 0 then S754_zero s
  else if 0 <=? e10 then
    binary_normalize prec emax (cond_Zopp s (m * 10 ^ e10)) 0 s
  else
    let d := 10 ^ (- e10) in
    let k := Z.max 0 (Z.log2 d + 66 - Z.log2 m) in
    let (q, r) := Z.div_eucl (m * 2 ^ k) d in
    let sticky := if r =? 0 then 0 else 1 in
    binary_normalize prec emax (cond_Zopp s (2 * q + sticky)) (- k - 1) s.

(** [round(x, 2)]: NaN and the infinities round to themselves; a finite
    [x] is rounded to the nearest multiple of 1/100 of its exact value
    (ties to the even multiple) and that decimal is converted back to
    the nearest double. *)
Definition round_half_even (num den : Z) : Z :=
  let (q, r) := Z.div_eucl num den in
  match 2 * r ?= den with
  | Lt => q
  | Gt => q + 1
  | Eq => if Z.even q then q else q + 1
  end.

Definition round2 (x : float) : float :=
  match x with
  | S754_finite s m e =>
      let hundredths :=
        if 0 <=? e then 100 * Zpos m * 2 ^ e
        else round_half_even (100 * Zpos m) (2 ^ (- e)) in
      of_decimal s hundredths (-2)
  | _ => x
  end.

End PyFloat.

Import PyFloat.

(* ------------------------------------------------------------------ *)
(** ** Python strings

    A [str] is a sequence of code points; the model keeps the code points
    below 256, one [ascii] each. *)

Module PyStr.

(** [c.isspace()]: the white space characters below 256. *)
Definition isspace (c : ascii) : bool :=
  let n := Z.of_N (N_of_ascii c) in
  ((9 <=? n) && (n <=? 13)) || ((28 <=? n) && (n <=? 32))
  || (n =? 133) || (n =? 160).

Fixpoint lstrip_by (sp : ascii -> bool) (l : list ascii) : list ascii :=
  match l with
  | c :: l' => if sp c then lstrip_by sp l' else l
  | [] => []
  end.

Definition strip_by (sp : ascii -> bool) (l : list ascii) : list ascii :=
  rev (lstrip_by sp (rev (lstrip_by sp l))).

(** [s.strip()] *)
Definition strip (s : string) : string :=
  string_of_list_ascii (strip_by isspace (list_ascii_of_string s)).

(** Truth value of a string: the empty string is false. *)
Definition truthy (s : string) : bool :=
  match s with EmptyString => false | _ => true end.

End PyStr.

(** The literal parser of [float(str)]. *)
Module FloatParse.

(** White space that [float] skips around the literal: the ASCII
    white space of C and the white space characters from 128 on. *)
Definition is_space (c : ascii) : bool :=
  let n := Z.of_N (N_of_ascii c) in
  ((9 <=? n) && (n <=? 13)) || (n =? 32) || (n =? 133) || (n =? 160).

Definition digit_of (c : ascii) : option Z :=
  let n := Z.of_N (N_of_ascii c) in
  if (48 <=? n) && (n <=? 57) then Some (n - 48) else None.

Definition lower (c : ascii) : ascii :=
  let n := N_of_ascii c in
  if ((65 <=? n) && (n <=? 90))%N then ascii_of_N (n + 32) else c.

(** [digitpart ::= digit (["_"] digit)*]: the digits read (most
    significant first) and the rest of the input; [None] when the input
    does not start with a digit. *)
Fixpoint more_digits (acc : list Z) (l : list ascii) : list Z * list ascii :=
  match l with
  | c :: l' =>
      match digit_of c with
      | Some d => more_digits (d :: acc) l'
      | None =>
          if Ascii.eqb c "_" then
            match l' with
            | c' :: l'' =>
                match digit_of c' with
                | Some d => more_digits (d :: acc) l''
                | None => (rev acc, l)
                end
            | [] => (rev acc, l)
            end
          else (rev acc, l)
      end
  | [] => (rev acc, [])
  end.

Definition digitpart (l : list ascii) : option (list Z * list ascii) :=
  match l with
  | c :: l' =>
      match digit_of c with
      | Some d => Some (more_digits [d] l')
      | None => None
      end
  | [] => None
  end.

Definition sign (l : list ascii) : bool * list ascii :=
  match l with
  | "-"%char :: l' => (true, l')
  | "+"%char :: l' => (false, l')
  | _ => (false, l)
  end.

Definition digits_value (ds : list Z) : Z :=
  fold_left (fun acc d => 10 * acc + d) ds 0.

(** [exponent ::= ("e" | "E") [sign] digitpart], or nothing. *)
Definition exponent (l : list ascii) : option Z :=
  match l with
  | [] => Some 0
  | c :: l' =>
      if Ascii.eqb (lower c) "e" then
        let (s, l'') := sign l' in
        match digitpart l'' with
        | Some (ds, []) => Some (cond_Zopp s (digits_value ds))
        | _ => None
        end
      else None
  end.

(** [number ::= [digitpart] "." digitpart | digitpart ["."]] followed
    by the optional exponent. *)
Definition floatnumber (s : bool) (l : list ascii) : option float :=
  let finish ip fp rest :=
    match exponent rest with
    | Some e =>
        Some (of_decimal s (digits_value (ip ++ fp)) (e - Z.of_nat (List.length fp)))
    | None => None
    end in
  match digitpart l with
  | Some (ip, "."%char :: rest) =>
      match digitpart rest with
      | Some (fp, rest') => finish ip fp rest'
      | None => finish ip [] rest
      end
  | Some (ip, rest) => finish ip [] rest
  | None =>
      match l with
      | "."%char :: rest =>
          match digitpart rest with
          | Some (fp, rest') => finish [] fp rest'
          | None => None
          end
      | _ => None
      end
  end.

(** [float(s)] for a string; [None] stands for [ValueError]. *)
Definition parse (str : string) : option float :=
  let (s, l) := sign (PyStr.strip_by is_space (list_ascii_of_string str)) in
  let word := string_of_list_ascii (map lower l) in
  if (String.eqb word "inf" || String.eqb word "infinity")%bool
  then Some (S754_infinity s)
  else if String.eqb word "nan" then Some S754_nan
  else floatnumber s l.

End FloatParse.

(** A float literal, written as Python writes it. *)
Definition flit (s : string) : float :=
  match FloatParse.parse s with Some f => f | None => nan end.

(* ------------------------------------------------------------------ *)
(** ** Python values, exceptions and the logger *)

Inductive exn : Type := TypeError | ValueError | OverflowError.

(** The objects a caller can place in the product list: [None], booleans,
    integers, floats, strings, tuples, lists and exception objects.
    Instances of user-defined classes are not part of the model. *)
#[local] Set Warnings "-register-all".
Inductive value : Type :=
| VNone
| VBool (b : bool)
| VInt (n : Z)
| VFloat (f : float)
| VStr (s : string)
| VTuple (items : list value)
| VList (items : list value)
| VExn (e : exn).

Inductive result (A : Type) : Type :=
| Return (a : A)
| Raised (e : exn).
Arguments Return {A} a.
Arguments Raised {A} e.

(** [isinstance(v, int)], with the integer the object stands for:
    [bool] is a subclass of [int], [True] is 1 and [False] is 0. *)
Definition as_int (v : value) : option Z :=
  match v with
  | VInt n => Some n
  | VBool true => Some 1
  | VBool false => Some 0
  | _ => None
  end.

(** The built-in [float(v)]. *)
Definition py_float (v : value) : result float :=
  match v with
  | VFloat f => Return f
  | VInt _ | VBool _ =>
      match as_int v with
      | Some n =>
          match of_int n with
          | Some f => Return f
          | None => Raised OverflowError
          end
      | None => Raised TypeError
      end
  | VStr s =>
      match FloatParse.parse s with
      | Some f => Return f
      | None => Raised ValueError
      end
  | VNone | VTuple _ | VList _ | VExn _ => Raised TypeError
  end.

(** [x * n] for a float [x] and an int [n]: [n] is converted first. *)
Definition float_mul_int (x : float) (n : Z) : result float :=
  match of_int n with
  | Some y => Return (mul x y)
  | None => Raised OverflowError
  end.

Inductive level : Type := DEBUG | INFO | WARNING | ERROR.

(** One call of a logger method: the level, the text of the f-string and
    the values of its fields, in order. *)
Record log_record : Type := Log {
  log_level : level;
  log_format : string;
  log_args : list value
}.

Record StockResult : Type := Build_StockResult {
  total_value : float;
  out_of_stock_items : list string;
  low_stock_items : list string;
  negative_stock_items : list string
}.


(** ** Rendering objects in log messages

    [sys.int_info.default_max_str_digits]: [str(n)] and [repr(n)] raise
    ValueError when the integer [n] has more decimal digits. *)
Definition default_max_str_digits : Z := 4300.

(** The least magnitude that does not render: [10 ** 4300]. *)
Definition max_str_bound : Z := Eval vm_compute in 10 ^ default_max_str_digits.

Definition int_str_ok (n : Z) : bool := Z.abs n <? max_str_bound.

(** [str(v)] and [repr(v)] return: no integer inside [v] is over the
    limit.  The [repr] of a tuple or of a list renders every element. *)
Fixpoint printable (v : value) : bool :=
  match v with
  | VInt n => int_str_ok n
  | VTuple items | VList items => forallb printable items
  | VNone | VBool _ | VFloat _ | VStr _ | VExn _ => true
  end.

(** The interpreter with the limit switched off
    ([sys.set_int_max_str_digits(0)]): every object renders. *)
Definition unlimited (v : value) : bool := true.


(* ------------------------------------------------------------------ *)
(** ** The monad of the loop body

    The state is the frame of [process_stock]: its four accumulators and
    the records handed to the module's logger.  A statement ends normally,
    with [continue], or by raising. *)

Module Frame.
Record t : Type := Build {
  total_value : float;
  out_of_stock_items : list string;
  low_stock_items : list string;
  negative_stock_items : list string;
  logger : list log_record
}.

(** The frame after lines 83-86. *)
Definition init : t := Build zero [] [] [] [].
End Frame.

Inductive outcome (A : Type) : Type :=
| Normal (a : A)
| Continue
| Raise (e : exn).
Arguments Normal {A} a.
Arguments Continue {A}.
Arguments Raise {A} e.

Definition Run (A : Type) : Type := Frame.t -> outcome A * Frame.t.

Definition ret {A} (a : A) : Run A := fun fr => (Normal a, fr).

Definition bind {A B} (m : Run A) (k : A -> Run B) : Run B :=
  fun fr =>
    match m fr with
    | (Normal a, fr') => k a fr'
    | (Continue, fr') => (Continue, fr')
    | (Raise e, fr') => (Raise e, fr')
    end.

Declare Scope run_scope.
Delimit Scope run_scope with run.
Notation "x <- m ;; k" := (bind m (fun x => k))
  (at level 61, m at next level, right associativity) : run_scope.
Notation "m ;; k" := (bind m (fun _ => k))
  (at level 61, right associativity) : run_scope.

Definition continue_ {A} : Run A := fun fr => (Continue, fr).
Definition raise {A} (e : exn) : Run A := fun fr => (Raise e, fr).

Definition lift {A} (r : result A) : Run A :=
  match r with
  | Return a => ret a
  | Raised e => raise e
  end.

(** The logger receives one record. *)
Definition emit (lv : level) (fmt : string) (args : list value) : Run unit :=
  fun fr =>
    (Normal tt,
     Frame.Build (Frame.total_value fr) (Frame.out_of_stock_items fr)
       (Frame.low_stock_items fr) (Frame.negative_stock_items fr)
       (Frame.logger fr ++ [Log lv fmt args])).

(** [total_value += x] *)
Definition add_total_value (x : float) : Run unit :=
  fun fr =>
    (Normal tt,
     Frame.Build (add (Frame.total_value fr) x) (Frame.out_of_stock_items fr)
       (Frame.low_stock_items fr) (Frame.negative_stock_items fr)
       (Frame.logger fr)).

(** [out_of_stock_items.append(s)] and its two siblings. *)
Definition append_out_of_stock (s : string) : Run unit :=
  fun fr =>
    (Normal tt,
     Frame.Build (Frame.total_value fr) (Frame.out_of_stock_items fr ++ [s])
       (Frame.low_stock_items fr) (Frame.negative_stock_items fr)
       (Frame.logger fr)).

Definition append_low_stock (s : string) : Run unit :=
  fun fr =>
    (Normal tt,
     Frame.Build (Frame.total_value fr) (Frame.out_of_stock_items fr)
       (Frame.low_stock_items fr ++ [s]) (Frame.negative_stock_items fr)
       (Frame.logger fr)).

Definition append_negative_stock (s : string) : Run unit :=
  fun fr =>
    (Normal tt,
     Frame.Build (Frame.total_value fr) (Frame.out_of_stock_items fr)
       (Frame.low_stock_items fr) (Frame.negative_stock_items fr ++ [s])
       (Frame.logger fr)).

(** [try: m  except (ValueError, TypeError): h] *)
Definition try_except_ValueError_TypeError {A} (m : Run A) (h : Run A) : Run A :=
  fun fr =>
    match m fr with
    | (Raise ValueError, fr') | (Raise TypeError, fr') => h fr'
    | r => r
    end.

(** [try: m  except ValueError: h] *)
Definition try_except_ValueError {A} (m : Run A) (h : Run A) : Run A :=
  fun fr =>
    match m fr with
    | (Raise ValueError, fr') => h fr'
    | r => r
    end.

(** [try: m  except Exception as e: h e]; the three exceptions of the
    model are all subclasses of [Exception]. *)
Definition try_except_Exception {A} (m : Run A) (h : exn -> Run A) : Run A :=
  fun fr =>
    match m fr with
    | (Raise e, fr') => h e fr'
    | r => r
    end.

(** [for i, x in enumerate(xs): body i x], counting from [i]: [continue]
    and normal completion of the body go on with the next element, an
    exception leaves the loop. *)
Fixpoint for_enumerate (body : Z -> value -> Run unit) (i : Z)
    (xs : list value) (fr : Frame.t) : result unit * Frame.t :=
  match xs with
  | [] => (Return tt, fr)
  | x :: xs' =>
      match body i x fr with
      | (Raise e, fr') => (Raised e, fr')
      | (_, fr') => for_enumerate body (i + 1) xs' fr'
      end
  end.

(* ------------------------------------------------------------------ *)
(** ** The module [stock_processor] *)

Local Open Scope string_scope.
Local Open Scope list_scope.
Local Open Scope Z_scope.
Local Open Scope run_scope.

Section Interpreter.

(** [renders v]: [str(v)] returns.  The module runs with
    [renders := printable]; [unlimited] is the run in which no rendering
    fails. *)
Variable renders : value -> bool.

(** The evaluation of an f-string with the fields [args]: ValueError when
    one of them does not render. *)
Definition format (args : list value) : Run unit :=
  fun fr =>
    if forallb renders args then (Normal tt, fr) else (Raise ValueError, fr).

(** [logger.<level>(f"...")]: the f-string is evaluated, then the record
    is handed to the logger. *)
Definition log (lv : level) (fmt : string) (args : list value) : Run unit :=
  format args ;; emit lv fmt args.

(** The same for a message whose first field is the index [i] of
    [enumerate] (or a length): it is below 2^63 on every list the
    interpreter can hold, so it always renders. *)
Definition log_at (lv : level) (fmt : string) (i : Z) (args : list value)
  : Run unit :=
  format args ;; emit lv fmt (VInt i :: args).

(** Lines 31-48.  Line 48 evaluates its own f-string before it raises. *)
Definition _convert_price_to_float (price : value) : Run float :=
  try_except_ValueError_TypeError
    (lift (py_float price))
    (log ERROR "Invalid price format: {price}" [price] ;;
     format [price] ;;
     raise ValueError).

(** Lines 91-142: the body of the loop, for the product at index [i]. *)
Definition loop_body (i : Z) (product : value) : Run unit :=
  try_except_Exception
    (match product with
     | VTuple [product_id; price; stock_quantity] =>
         match product_id with
         | VStr id =>
             if negb (PyStr.truthy (PyStr.strip id)) then
               log_at WARNING "Invalid product ID at index {i}: {product_id}"
                 i [product_id] ;;
               continue_
             else
               price_float <-
                 try_except_ValueError
                   (price_float <- _convert_price_to_float price ;;
                    if lt price_float zero then
                      log WARNING "Negative price for {product_id}: {price}"
                        [product_id; price] ;;
                      ret zero
                    else ret price_float)
                   (log ERROR
                      "Skipping product {product_id} due to invalid price: {price}"
                      [product_id; price] ;;
                    continue_) ;;
               match as_int stock_quantity with
               | None =>
                   log WARNING
                     "Invalid stock quantity for {product_id}: {stock_quantity}"
                     [product_id; stock_quantity] ;;
                   continue_
               | Some quantity =>
                   effective_stock <-
                     (if quantity <? 0 then
                        append_negative_stock id ;;
                        log WARNING
                          "Negative stock quantity for {product_id}: {stock_quantity}"
                          [product_id; stock_quantity] ;;
                        ret 0%Z
                      else ret quantity) ;;
                   stock_value <- lift (float_mul_int price_float effective_stock) ;;
                   add_total_value stock_value ;;
                   (if quantity =? 0 then append_out_of_stock id
                    else if (0 <? quantity) && (quantity <=? 5)
                         then append_low_stock id
                         else ret tt) ;;
                   log DEBUG
                     "Processed {product_id}: price={price_float}, stock={stock_quantity}, value={stock_value}"
                     [product_id; VFloat price_float; stock_quantity;
                      VFloat stock_value]
               end
         | _ =>
             log_at WARNING "Invalid product ID at index {i}: {product_id}"
               i [product_id] ;;
             continue_
         end
     | _ =>
         log_at WARNING "Skipping invalid product at index {i}: {product}"
           i [product] ;;
         continue_
     end)
    (fun e =>
       log_at ERROR "Error processing product at index {i}: {product}. Error: {e}"
         i [product; VExn e] ;;
       continue_).

(** [process_stock(product_list)], with the records it hands to the
    logger. *)
Definition run_process_stock (product_list : value)
  : result StockResult * list log_record :=
  match product_list with
  | VList products =>
      let fr0 :=
        snd (log_at INFO "Processing {len(product_list)} products"
               (Z.of_nat (List.length products)) [] Frame.init) in
      match for_enumerate loop_body 0 products fr0 with
      | (Raised e, fr) => (Raised e, Frame.logger fr)
      | (Return _, fr) =>
          match
            log INFO "Processing complete. Total value: ${total_value:.2f}"
              [VFloat (Frame.total_value fr)] fr
          with
          | (Raise e, fr') => (Raised e, Frame.logger fr')
          | (_, fr') =>
              (Return
                 (Build_StockResult
                    (round2 (Frame.total_value fr'))
                    (Frame.out_of_stock_items fr')
                    (Frame.low_stock_items fr')
                    (Frame.negative_stock_items fr')),
               Frame.logger fr')
          end
      end
  | _ => (Raised TypeError, [])
  end.

End Interpreter.

Definition process_stock (product_list : value) : result StockResult :=
  fst (run_process_stock printable product_list).

(** Lines 155-164. *)
Definition process_stock_legacy (product_list : value)
  : result (float * list string) :=
  match process_stock product_list with
  | Return result => Return (total_value result, out_of_stock_items result)
  | Raised e => Raised e
  end.

Local Close Scope run_scope.

(* ------------------------------------------------------------------ *)
(** ** What one iteration does to the accumulators

    The definitions of this section are not part of the module: they
    describe the loop body as a function on the four accumulators and are
    proved below to agree with [loop_body] on every iteration that does
    not leave the loop. *)

(** The locals [product_id], [price_float] and [stock_quantity] (as an
    integer) once the four validation steps of lines 92-116 have passed;
    [None] when one of them ends the iteration. *)
Definition validate (product : value) : option (string * float * Z) :=
  match product with
  | VTuple [product_id; price; stock_quantity] =>
      match product_id with
      | VStr id =>
          if PyStr.truthy (PyStr.strip id) then
            match py_float price, as_int stock_quantity with
            | Return f, Some quantity =>
                Some (id, if lt f zero then zero else f, quantity)
            | _, _ => None
            end
          else None
      | _ => None
      end
  | _ => None
  end.

(** [stock_value] of line 128; [None] when the product raises. *)
Definition stock_value_of (price_float : float) (quantity : Z) : option float :=
  match float_mul_int price_float (if quantity <? 0 then 0 else quantity) with
  | Return v => Some v
  | Raised _ => None
  end.

(** The record reaches line 129: it is valid and not skipped. *)
Definition processed (product : value) : option (string * float * Z) :=
  match validate product with
  | Some (id, price_float, quantity) =>
      match stock_value_of price_float quantity with
      | Some _ => Some (id, price_float, quantity)
      | None => None
      end
  | None => None
  end.

Definition is_out_of_stock (quantity : Z) : bool := quantity =? 0.
Definition is_low_stock (quantity : Z) : bool := (0 <? quantity) && (quantity <=? 5).
Definition is_negative_stock (quantity : Z) : bool := quantity <? 0.

Definition append_if (b : bool) (l : list string) (s : string) : list string :=
  if b then l ++ [s] else l.

Definition account (acc : StockResult) (product : value) : StockResult :=
  match validate product with
  | Some (id, price_float, quantity) =>
      match stock_value_of price_float quantity with
      | Some stock_value =>
          Build_StockResult
            (add (total_value acc) stock_value)
            (append_if (is_out_of_stock quantity) (out_of_stock_items acc) id)
            (append_if (is_low_stock quantity) (low_stock_items acc) id)
            (append_if (is_negative_stock quantity) (negative_stock_items acc) id)
      | None => acc
      end
  | None => acc
  end.

Definition accumulators (fr : Frame.t) : StockResult :=
  Build_StockResult (Frame.total_value fr) (Frame.out_of_stock_items fr)
    (Frame.low_stock_items fr) (Frame.negative_stock_items fr).

Definition accumulate (acc : StockResult) (products : list value) : StockResult :=
  fold_left account products acc.

Definition rounded (acc : StockResult) : StockResult :=
  Build_StockResult (round2 (total_value acc)) (out_of_stock_items acc)
    (low_stock_items acc) (negative_stock_items acc).

Definition empty_result : StockResult := Build_StockResult zero [] [] [].

(** What the record adds to [total_value], when it is processed. *)
Definition contribution (product : value) : option float :=
  match validate product with
  | Some (_, price_float, quantity) => stock_value_of price_float quantity
  | None => None
  end.

(** The running total after the products, starting from [t]. *)
Definition sum_from (t : float) (products : list value) : float :=
  fold_left
    (fun t product =>
       match contribution product with
       | Some stock_value => add t stock_value
       | None => t
       end)
    products t.

(** The identifiers of the valid records whose quantity satisfies
    [category], in input order. *)
Definition category_ids (category : Z -> bool) (products : list value)
  : list string :=
  flat_map
    (fun product =>
       match validate product with
       | Some (id, _, quantity) => if category quantity then [id] else []
       | None => []
       end)
    products.

(** The identifiers of the processed records, in input order. *)
Definition processed_ids (products : list value) : list string :=
  flat_map
    (fun product =>
       match processed product with
       | Some (id, _, _) => [id]
       | None => []
       end)
    products.

(** The records that pass the four validation steps. *)
Definition valid_subset (products : list value) : list value :=
  filter
    (fun product =>
       match validate product with Some _ => true | None => false end)
    products.

(** No valid record has a price that normalizes to NaN or to +infinity
    (a price of -infinity is negative and is clamped to 0.0). *)
Definition finite_prices (products : list value) : bool :=
  forallb
    (fun product =>
       match validate product with
       | Some (_, price_float, _) => is_finite price_float
       | None => true
       end)
    products.



(** The valid records of the batch as the loop sees them (identifier,
    clamped price, quantity), in input order. *)
Definition valid_records (products : list value) : list (string * float * Z) :=
  flat_map
    (fun product =>
       match validate product with Some record => [record] | None => [] end)
    products.

(** The identifiers of the records whose quantity satisfies [category],
    in the order of the records. *)
Definition matching (category : Z -> bool) (records : list (string * float * Z))
  : list string :=
  map (fun '(id, _, _) => id)
    (filter (fun '(_, _, quantity) => category quantity) records).

(** [isinstance(v, list)] *)
Definition is_list (v : value) : bool :=
  match v with VList _ => true | _ => false end.

(** The specification's "iterable sequence of records, of any sequence
    kind": a list or a tuple of records; a single string is not one. *)
Definition is_sequence (v : value) : bool :=
  match v with VList _ | VTuple _ => true | _ => false end.

(** The record fails one of the validation steps of lines 92-116. *)
Inductive fails_validation : value -> Prop :=
| not_a_3_tuple product :
    (forall a b c, product <> VTuple [a; b; c]) ->
    fails_validation product
| bad_identifier product_id price stock_quantity :
    (forall id, product_id = VStr id -> PyStr.truthy (PyStr.strip id) = false) ->
    fails_validation (VTuple [product_id; price; stock_quantity])
| bad_price product_id price stock_quantity e :
    py_float price = Raised e ->
    fails_validation (VTuple [product_id; price; stock_quantity])
| bad_quantity product_id price stock_quantity :
    as_int stock_quantity = None ->
    fails_validation (VTuple [product_id; price; stock_quantity]).


(** [x] is not NaN and its sign bit is clear. *)
Definition sign_clear (x : float) : bool :=
  match x with
  | S754_zero false | S754_finite false _ _ | S754_infinity false => true
  | _ => false
  end.

(** A term that keeps a running sum non-negative: a zero of either sign,
    or a [sign_clear] value. *)
Definition term_ok (x : float) : bool :=
  match x with
  | S754_zero _ => true
  | _ => sign_clear x
  end.

(** The result of a rounding carries the sign it was given. *)
Inductive rounds_to (s : bool) : float -> Prop :=
| rounds_zero : rounds_to s (S754_zero s)
| rounds_finite m e : rounds_to s (S754_finite s m e)
| rounds_infinity : rounds_to s (S754_infinity s).

(** [float(1)] *)
Definition one : float := S754_finite false 4503599627370496 (-52).

(** [StockData(product_id, price, stock_quantity)]: the named tuple of
    lines 16-20 is a 3-tuple. *)
Definition StockData (product_id : string) (price : value) (stock_quantity : Z)
  : value :=
  VTuple [VStr product_id; price; VInt stock_quantity].

(** A float object written as a literal. *)
Definition F (literal : string) : value := VFloat (flit literal).

(** The records one iteration of the loop hands to the logger when no
    rendering fails, for the product at index [i]: the log of [loop_body]
    run on a fresh frame. *)
Definition diagnostics (i : Z) (product : value) : list log_record :=
  Frame.logger (snd (loop_body unlimited i product Frame.init)).

(** The iteration for [product] leaves the loop with an exception: the
    outcome of [loop_body] on a fresh frame. *)
Definition aborts (product : value) : bool :=
  match fst (loop_body printable 0 product Frame.init) with
  | Raise _ => true
  | _ => false
  end.

(** The records of the whole loop, for products counted from [i]. *)
Fixpoint batch_diagnostics (i : Z) (products : list value) : list log_record :=
  match products with
  | [] => []
  | x :: xs => diagnostics i x ++ batch_diagnostics (i + 1) xs
  end.

Definition level_eqb (a b : level) : bool :=
  match a, b with
  | DEBUG, DEBUG | INFO, INFO | WARNING, WARNING | ERROR, ERROR => true
  | _, _ => false
  end.

(** How many records of the log were emitted at level [lv]. *)
Definition count_level (lv : level) (log : list log_record) : nat :=
  List.length (filter (fun r => level_eqb lv (log_level r)) log).

Definition is_processed (product : value) : bool :=
  match processed product with Some _ => true | None => false end.

(** How many records of the log carry the message text [fmt]. *)
Definition count_format (fmt : string) (log : list log_record) : nat :=
  List.length (filter (fun r => String.eqb fmt (log_format r)) log).

(** The result and the log of a call in which no rendering fails. *)
Definition result_of (products : list value) : StockResult :=
  Build_StockResult
    (round2 (sum_from zero products))
    (category_ids is_out_of_stock products)
    (category_ids is_low_stock products)
    (category_ids is_negative_stock products).

Definition log_of (products : list value) : list log_record :=
  Log INFO "Processing {len(product_list)} products"
    [VInt (Z.of_nat (List.length products))]
  :: batch_diagnostics 0 products
  ++ [Log INFO "Processing complete. Total value: ${total_value:.2f}"
        [VFloat (sum_from zero products)]].

(* ------------------------------------------------------------------ *)
(** * Properties *)

(** ** The scenarios of [tests/test_stock.py] *)

(** The quantity 5 of [p001] is within the low-stock threshold. *)
Example test_basic_stock_processing :
  process_stock
    (VList [StockData "p001" (F "100.00") 5; StockData "p002" (F "50.00") 3;
            StockData "p003" (F "200.00") 0])
  = Return (Build_StockResult (flit "650.00") ["p003"] ["p001"; "p002"] []).
Proof. vm_compute. reflexivity. Qed.

Example test_negative_stock_handling :
  process_stock
    (VList [StockData "p001" (F "100.00") (-5); StockData "p002" (F "50.00") 3;
            StockData "p003" (F "200.00") (-2)])
  = Return (Build_StockResult (flit "150.00") [] ["p002"] ["p001"; "p003"]).
Proof. vm_compute. reflexivity. Qed.

Example test_empty :
  process_stock (VList []) = Return (Build_StockResult (flit "0.0") [] [] []).
Proof. vm_compute. reflexivity. Qed.

Example test_string_price_conversion :
  process_stock
    (VList [StockData "p001" (VStr "150.50") 4; StockData "p002" (VStr "99.99") 2;
            StockData "p003" (F "75.25") 6])
  = Return (Build_StockResult (flit "1253.48") [] ["p001"; "p002"] []).
Proof. vm_compute. reflexivity. Qed.

Example test_invalid_data_handling :
  process_stock
    (VList [StockData "p001" (F "100.00") 5; StockData "p002" (VStr "invalid") 3;
            VTuple [VStr "p003"; F "50.00"; VStr "text"];
            StockData "p004" (F "75.00") 2])
  = Return (Build_StockResult (flit "650.0") [] ["p001"; "p004"] []).
Proof. vm_compute. reflexivity. Qed.

Example test_precision_and_rounding :
  process_stock
    (VList [StockData "p001" (F "33.333") 3; StockData "p002" (F "66.666") 2])
  = Return (Build_StockResult (flit "233.33") [] ["p001"; "p002"] []).
Proof. vm_compute. reflexivity. Qed.

Example test_invalid_input_types :
  process_stock (VStr "not a list") = Raised TypeError.
Proof. vm_compute. reflexivity. Qed.

Example test_malformed_tuples :
  process_stock
    (VList [VTuple [VStr "p001"; F "100.00"];
            VTuple [VStr "p002"; F "50.00"; VInt 5; VStr "extra"];
            VStr "not a tuple"])
  = Return (Build_StockResult (flit "0.0") [] [] []).
Proof. vm_compute. reflexivity. Qed.

(* ------------------------------------------------------------------ *)
(** ** Rounding keeps the sign *)


Lemma shr_1_nonneg mrs : 0 <= shr_m mrs -> 0 <= shr_m (shr_1 mrs).
Proof.
  destruct mrs as [m r s]; cbn.
  destruct m as [|[p|p|]|[p|p|]]; cbn; intros H; try lia.
Qed.

Lemma iter_shr_1_nonneg p : forall mrs,
  0 <= shr_m mrs -> 0 <= shr_m (iter_pos shr_1 p mrs).
Proof.
  induction p as [p IH|p IH|]; intros mrs H; cbn.
  - apply IH, IH, shr_1_nonneg, H.
  - apply IH, IH, H.
  - apply shr_1_nonneg, H.
Qed.

Lemma shr_fexp_nonneg m e l :
  0 <= m -> 0 <= shr_m (fst (shr_fexp prec emax m e l)).
Proof.
  intros H. unfold shr_fexp, shr.
  assert (0 <= shr_m (shr_record_of_loc m l)) as H0
    by (destruct l as [|[]]; exact H).
  destruct (fexp prec emax (Zdigits2 m + e) - e); cbn [fst]; auto.
  apply iter_shr_1_nonneg, H0.
Qed.

Lemma round_nearest_even_nonneg m l : 0 <= m -> 0 <= round_nearest_even m l.
Proof.
  intros H. unfold round_nearest_even.
  destruct l as [|[]]; try destruct (Z.even m); lia.
Qed.

Lemma binary_round_aux_sign s m e l :
  0 <= m -> rounds_to s (binary_round_aux prec emax s m e l).
Proof.
  intros H. unfold binary_round_aux.
  pose proof (shr_fexp_nonneg m e l H) as H1.
  destruct (shr_fexp prec emax m e l) as [mrs' e']. cbn [fst] in H1.
  pose proof (shr_fexp_nonneg _ e' loc_Exact
                (round_nearest_even_nonneg _ (loc_of_shr_record mrs') H1)) as H2.
  destruct (shr_fexp prec emax _ e' loc_Exact) as [mrs'' e'']. cbn [fst] in H2.
  destruct (shr_m mrs'') as [|p|p]; try lia; [constructor|].
  destruct (e'' <=? emax - prec); constructor.
Qed.

Lemma binary_round_sign s m e : rounds_to s (binary_round prec emax s m e).
Proof.
  unfold binary_round.
  destruct (shl_align m e _) as [mz ez].
  apply binary_round_aux_sign. lia.
Qed.

Lemma binary_normalize_nonneg m e :
  0 <= m -> rounds_to false (binary_normalize prec emax m e false).
Proof.
  intros H. destruct m as [|p|p]; cbn; try lia.
  - constructor.
  - apply binary_round_sign.
Qed.


(* ------------------------------------------------------------------ *)
(** ** Signs of sums, products and rounded totals *)


Lemma rounds_to_sign_clear x : rounds_to false x -> sign_clear x = true.
Proof. intros []; reflexivity. Qed.

Lemma sign_clear_ge x : sign_clear x = true -> ge x zero = true.
Proof. destruct x as [[]|[]| |[] m e]; cbn; congruence. Qed.

Lemma sign_clear_not_lt x : is_nan x || sign_clear x = true -> lt x zero = false.
Proof. destruct x as [[]|[]| |[] m e]; cbn; congruence. Qed.

Lemma add_sign_clear t y :
  sign_clear t = true -> term_ok y = true -> sign_clear (add t y) = true.
Proof.
  destruct t as [[]|[]| |[] mt et]; cbn; try discriminate; intros _;
    destruct y as [[]|[]| |[] my ey]; cbn; try discriminate; intros _;
    try reflexivity.
  apply rounds_to_sign_clear, binary_round_sign.
Qed.

Lemma add_weak t y :
  is_nan t || sign_clear t = true -> is_nan y || term_ok y = true ->
  is_nan (add t y) || sign_clear (add t y) = true.
Proof.
  destruct t as [[]|[]| |[] mt et]; cbn; try discriminate; intros _;
    destruct y as [[]|[]| |[] my ey]; cbn; try discriminate; intros _;
    try reflexivity.
  rewrite (rounds_to_sign_clear _ (binary_round_sign false _ _)).
  apply orb_true_r.
Qed.

Lemma of_int_nonneg n f :
  0 <= n -> of_int n = Some f -> sign_clear f = true /\ is_finite f = true.
Proof.
  unfold of_int. intros H.
  destruct (binary_normalize_nonneg n 0 H); intros E; inversion E; subst; auto.
Qed.

(** [price_float] after the clamp of lines 106-108. *)
Lemma mul_weak p y :
  lt p zero = false -> sign_clear y = true ->
  is_nan (mul p y) || term_ok (mul p y) = true.
Proof.
  destruct p as [[]|[]| |[] mp ep]; cbn; try discriminate; intros _;
    destruct y as [[]|[]| |[] my ey]; cbn; try discriminate; intros _;
    try reflexivity.
  destruct (binary_round_aux_sign false (Zpos (mp * my)) (ep + ey) loc_Exact
              ltac:(lia)); cbn; auto.
Qed.

Lemma mul_term_ok p y :
  lt p zero = false -> is_finite p = true ->
  sign_clear y = true -> is_finite y = true ->
  term_ok (mul p y) = true.
Proof.
  destruct p as [[]|[]| |[] mp ep]; cbn; try discriminate; intros _ _;
    destruct y as [[]|[]| |[] my ey]; cbn; try discriminate; intros _ _;
    try reflexivity.
  destruct (binary_round_aux_sign false (Zpos (mp * my)) (ep + ey) loc_Exact
              ltac:(lia)); cbn; auto.
Qed.

Lemma of_decimal_sign_clear m e10 : sign_clear (of_decimal false m e10) = true.
Proof.
  unfold of_decimal.
  destruct (Z.leb_spec m 0) as [Hm|Hm]; [reflexivity|].
  destruct (0 <=? e10) eqn:He.
  - apply rounds_to_sign_clear, binary_normalize_nonneg. cbn.
    apply Z.mul_nonneg_nonneg; [lia|]. apply Z.pow_nonneg. lia.
  - set (d := 10 ^ (- e10)). set (k := Z.max 0 (Z.log2 d + 66 - Z.log2 m)).
    assert (0 < d) as Hd by (apply Z.pow_pos_nonneg; lia).
    assert (0 <= m * 2 ^ k) as Hn
      by (apply Z.mul_nonneg_nonneg; [lia|apply Z.pow_nonneg; lia]).
    pose proof (Z_div_mod (m * 2 ^ k) d ltac:(lia)) as Hdiv.
    destruct (Z.div_eucl (m * 2 ^ k) d) as [q r].
    apply rounds_to_sign_clear, binary_normalize_nonneg. cbn [cond_Zopp].
    assert (0 <= q) by nia.
    destruct (r =? 0); lia.
Qed.

Lemma round2_sign_clear x : sign_clear x = true -> sign_clear (round2 x) = true.
Proof.
  destruct x as [[]|[]| |[] m e]; cbn [sign_clear round2]; try discriminate;
    intros _; try reflexivity.
  apply of_decimal_sign_clear.
Qed.

Lemma round2_weak x :
  is_nan x || sign_clear x = true ->
  is_nan (round2 x) || sign_clear (round2 x) = true.
Proof.
  destruct x as [[]|[]| |[] m e]; cbn [is_nan orb sign_clear round2];
    try discriminate; intros _; try reflexivity.
  rewrite of_decimal_sign_clear. apply orb_true_r.
Qed.


(* ------------------------------------------------------------------ *)
(** ** Multiplication by [float(1)] *)


Lemma of_int_1 : of_int 1 = Some one.
Proof. reflexivity. Qed.

Lemma of_int_0 : of_int 0 = Some zero.
Proof. reflexivity. Qed.

Lemma mul_xO_52 m :
  (m * 4503599627370496)%positive = Pos.iter xO m 52.
Proof. rewrite Pos.mul_comm. reflexivity. Qed.

Lemma digits2_xO_52 m :
  Zpos (digits2_pos (Pos.iter xO m 52)) = Zpos (digits2_pos m) + 52.
Proof. cbn. lia. Qed.

Lemma iter_shr_1_xO_52 m :
  iter_pos shr_1 52 (Build_shr_record (Zpos (Pos.iter xO m 52)) false false)
  = Build_shr_record (Zpos m) false false.
Proof. reflexivity. Qed.

(** Multiplying a binary64 value by 1.0 is exact. *)
Lemma mul_one p : valid_binary prec emax p = true -> mul p one = p.
Proof.
  destruct p as [s|s| |s m e]; cbn [valid_binary]; intros H;
    try (cbn; now rewrite ?xorb_false_r).
  unfold bounded, canonical_mantissa in H.
  apply andb_true_iff in H. destruct H as [Hc Hb].
  apply Z.eqb_eq in Hc.
  unfold mul, one, SFmul. rewrite xorb_false_r, mul_xO_52.
  assert (shr_fexp prec emax (Zpos (Pos.iter xO m 52)) (e + -52) loc_Exact
          = (Build_shr_record (Zpos m) false false, e)) as E1.
  { unfold shr_fexp. cbn [Zdigits2]. rewrite digits2_xO_52.
    replace (Zpos (digits2_pos m) + 52 + (e + -52))
      with (Zpos (digits2_pos m) + e) by lia.
    rewrite Hc. replace (e - (e + -52)) with 52 by lia.
    unfold shr. cbn [shr_record_of_loc]. rewrite iter_shr_1_xO_52.
    f_equal. lia. }
  assert (shr_fexp prec emax (Zpos m) e loc_Exact
          = (Build_shr_record (Zpos m) false false, e)) as E2.
  { unfold shr_fexp. cbn [Zdigits2]. rewrite Hc, Z.sub_diag. reflexivity. }
  unfold binary_round_aux. rewrite E1.
  cbn [shr_m loc_of_shr_record round_nearest_even]. rewrite E2.
  cbn [shr_m]. now rewrite Hb.
Qed.


(* ------------------------------------------------------------------ *)
(** ** The loop body and the accumulators *)

(** Case analysis on the path an iteration takes: the shape of the
    product, then every test the body makes. *)
Ltac unfold_body :=
  unfold loop_body, try_except_Exception, try_except_ValueError,
    _convert_price_to_float, try_except_ValueError_TypeError,
    log, log_at, format, emit, bind, lift, ret, raise, continue_,
    float_mul_int, add_total_value, append_out_of_stock, append_low_stock,
    append_negative_stock, unlimited in *.

Ltac reduce_body :=
  cbn -[mul add of_int int_str_ok PyStr.strip PyStr.truthy py_float Z.ltb
        Z.eqb Z.leb] in *.

Ltac case_on x :=
  lazymatch x with
  | andb ?a _ => case_on a
  | negb ?a => case_on a
  | _ => destruct x eqn:?
  end.

Ltac split_test :=
  match goal with
  | |- context [match ?x with _ => _ end] =>
      lazymatch x with
      | context [match _ with _ => _ end] => fail
      | _ => case_on x
      end
  | H : context [match ?x with _ => _ end] |- _ =>
      lazymatch x with
      | context [match _ with _ => _ end] => fail
      | _ => case_on x
      end
  end.

Ltac absurd_case :=
  solve [discriminate | congruence | exfalso; lia].

Ltac body_cases finish :=
  unfold_body; reduce_body;
  repeat (first [absurd_case | solve [finish] | split_test; reduce_body]).

Ltac skipped :=
  solve [split; [intros ? H'; discriminate H' | congruence]].

Lemma loop_body_accumulators i product fr :
  (forall e, fst (loop_body unlimited i product fr) <> Raise e) /\
  accumulators (snd (loop_body unlimited i product fr))
  = account (accumulators fr) product.
Proof.
  unfold account, validate, stock_value_of, is_negative_stock,
    is_out_of_stock, is_low_stock, append_if, accumulators.
  destruct fr.
  body_cases skipped.
Qed.

Lemma of_int_small q : 0 <= q <= 5 -> exists f, of_int q = Some f.
Proof.
  intros H. assert (q = 0 \/ q = 1 \/ q = 2 \/ q = 3 \/ q = 4 \/ q = 5) as D by lia.
  destruct D as [->|[->|[->|[->|[->| ->]]]]]; vm_compute; eauto.
Qed.

(** When no rendering fails, the loop runs to its end whatever the body
    does. *)
Lemma for_enumerate_loop_body products : forall i fr,
  exists fr',
    for_enumerate (loop_body unlimited) i products fr = (Return tt, fr')
    /\ accumulators fr' = accumulate (accumulators fr) products.
Proof.
  induction products as [|x xs IH]; intros i fr; cbn [for_enumerate].
  - exists fr. split; reflexivity.
  - destruct (loop_body_accumulators i x fr) as [Hno Hacc].
    destruct (loop_body unlimited i x fr) as [o fr1]. cbn [fst snd] in Hno, Hacc.
    destruct (IH (i + 1) fr1) as [fr' [Hrun Hfr']].
    exists fr'. unfold accumulate in *. cbn [fold_left]. rewrite <- Hacc.
    destruct o as [[]| |e]; [auto|auto|].
    exfalso. exact (Hno e eq_refl).
Qed.

Ltac logged := solve [rewrite <- ?app_assoc; reflexivity].

(** An iteration only appends to the log, and what it appends depends on
    the index and the product alone. *)
Lemma loop_body_logger i product fr :
  Frame.logger (snd (loop_body unlimited i product fr))
  = Frame.logger fr ++ diagnostics i product.
Proof.
  unfold diagnostics, Frame.init. destruct fr.
  body_cases logged.
Qed.

Lemma for_enumerate_logger products : forall i fr,
  Frame.logger (snd (for_enumerate (loop_body unlimited) i products fr))
  = Frame.logger fr ++ batch_diagnostics i products.
Proof.
  induction products as [|x xs IH]; intros i fr;
    cbn [for_enumerate batch_diagnostics].
  - now rewrite app_nil_r.
  - pose proof (loop_body_logger i x fr) as Hlog.
    destruct (loop_body_accumulators i x fr) as [Hno _].
    destruct (loop_body unlimited i x fr) as [o fr1]. cbn [fst snd] in Hlog, Hno.
    destruct o as [[]| |e]; [| |exfalso; exact (Hno e eq_refl)];
      now rewrite IH, Hlog, app_assoc.
Qed.

Lemma stock_value_of_small price_float quantity :
  quantity <= 5 -> exists v, stock_value_of price_float quantity = Some v.
Proof.
  intros H. unfold stock_value_of, float_mul_int.
  destruct (Z.ltb_spec quantity 0) as [Hn|Hn].
  - change (of_int 0) with (Some zero). eauto.
  - destruct (of_int_small quantity ltac:(lia)) as [f ->]. eauto.
Qed.

Lemma category_le_5 quantity :
  is_out_of_stock quantity || is_low_stock quantity || is_negative_stock quantity
  = (quantity <=? 5).
Proof.
  unfold is_out_of_stock, is_low_stock, is_negative_stock.
  destruct (Z.eqb_spec quantity 0), (Z.ltb_spec 0 quantity),
    (Z.leb_spec quantity 5), (Z.ltb_spec quantity 0); cbn; lia.
Qed.

Lemma category_exclusive quantity :
  (if is_out_of_stock quantity then 1 else 0)
  + (if is_low_stock quantity then 1 else 0)
  + (if is_negative_stock quantity then 1 else 0)
  = if quantity <=? 5 then 1 else 0.
Proof.
  unfold is_out_of_stock, is_low_stock, is_negative_stock.
  destruct (Z.eqb_spec quantity 0), (Z.ltb_spec 0 quantity),
    (Z.leb_spec quantity 5), (Z.ltb_spec quantity 0); cbn; lia.
Qed.

Lemma account_eq acc x :
  account acc x
  = Build_StockResult
      (sum_from (total_value acc) [x])
      (out_of_stock_items acc ++ category_ids is_out_of_stock [x])
      (low_stock_items acc ++ category_ids is_low_stock [x])
      (negative_stock_items acc ++ category_ids is_negative_stock [x]).
Proof.
  unfold account, sum_from, category_ids, contribution, append_if.
  cbn [fold_left flat_map].
  destruct (validate x) as [[[id price_float] quantity]|].
  - destruct (stock_value_of price_float quantity) as [v|] eqn:Ev.
    + destruct (is_out_of_stock quantity), (is_low_stock quantity),
        (is_negative_stock quantity); now rewrite ?app_nil_r.
    + pose proof (category_le_5 quantity) as Hc.
      destruct (Z.leb_spec quantity 5) as [Hq|Hq].
      * destruct (stock_value_of_small price_float quantity Hq) as [v Hv].
        congruence.
      * apply orb_false_iff in Hc. destruct Hc as [Hc Hc3].
        apply orb_false_iff in Hc. destruct Hc as [Hc1 Hc2].
        rewrite Hc1, Hc2, Hc3. rewrite !app_nil_r. now destruct acc.
  - rewrite !app_nil_r. now destruct acc.
Qed.

Lemma sum_from_app t l1 l2 :
  sum_from t (l1 ++ l2) = sum_from (sum_from t l1) l2.
Proof. apply fold_left_app. Qed.

Lemma category_ids_app category l1 l2 :
  category_ids category (l1 ++ l2)
  = category_ids category l1 ++ category_ids category l2.
Proof. apply flat_map_app. Qed.

Lemma accumulate_eq products : forall acc,
  accumulate acc products
  = Build_StockResult
      (sum_from (total_value acc) products)
      (out_of_stock_items acc ++ category_ids is_out_of_stock products)
      (low_stock_items acc ++ category_ids is_low_stock products)
      (negative_stock_items acc ++ category_ids is_negative_stock products).
Proof.
  induction products as [|x xs IH]; intros acc.
  - cbn. rewrite !app_nil_r. now destruct acc.
  - change (accumulate acc (x :: xs)) with (accumulate (account acc x) xs).
    rewrite IH, account_eq. cbn [total_value out_of_stock_items
      low_stock_items negative_stock_items].
    change (x :: xs) with ([x] ++ xs).
    now rewrite sum_from_app, !category_ids_app, !app_assoc.
Qed.

Lemma run_process_stock_unlimited products :
  run_process_stock unlimited (VList products)
  = (Return (result_of products), log_of products).
Proof.
  unfold run_process_stock, result_of, log_of.
  match goal with
  | |- context [for_enumerate (loop_body unlimited) 0 products ?fr0] =>
      pose proof (for_enumerate_logger products 0 fr0) as Hlog;
      destruct (for_enumerate_loop_body products 0 fr0) as [fr [Hrun Hacc]];
      rewrite Hrun in Hlog |- *
  end.
  unfold accumulators in Hacc. rewrite accumulate_eq in Hacc.
  unfold log, log_at, format, emit, bind, unlimited in *.
  cbn [fst snd forallb Frame.logger Frame.total_value Frame.out_of_stock_items
    Frame.low_stock_items Frame.negative_stock_items Frame.init app
    total_value out_of_stock_items low_stock_items negative_stock_items]
    in Hacc, Hlog |- *.
  inversion Hacc as [[Ht Ho Hl Hn]]. cbn.
  now rewrite Hlog, Ht, Ho, Hl, Hn.
Qed.

(* ------------------------------------------------------------------ *)
(** ** Iterations that leave the loop *)

Ltac refined :=
  solve [left; split; [reflexivity | congruence]
        | right; split; [reflexivity | congruence]].

(** An iteration either leaves the loop with ValueError, whatever the
    index and the frame, or goes exactly as when no rendering fails. *)
Lemma loop_body_refines i product fr :
  (aborts product = true
   /\ fst (loop_body printable i product fr) = Raise ValueError)
  \/ (aborts product = false
      /\ loop_body printable i product fr = loop_body unlimited i product fr).
Proof.
  unfold aborts, Frame.init. destruct fr.
  body_cases refined.
Qed.

Lemma for_enumerate_refines products : forall i fr,
  existsb aborts products = false ->
  for_enumerate (loop_body printable) i products fr
  = for_enumerate (loop_body unlimited) i products fr.
Proof.
  induction products as [|x xs IH]; intros i fr H; [reflexivity|].
  cbn [existsb] in H. apply orb_false_iff in H. destruct H as [Hx Hxs].
  cbn [for_enumerate].
  destruct (loop_body_refines i x fr) as [[Ha _]|[_ ->]]; [congruence|].
  destruct (loop_body unlimited i x fr) as [[[]| |e] fr1]; auto.
Qed.

Lemma for_enumerate_aborts products : forall i fr,
  existsb aborts products = true ->
  fst (for_enumerate (loop_body printable) i products fr) = Raised ValueError.
Proof.
  induction products as [|x xs IH]; intros i fr H; [discriminate|].
  cbn [existsb] in H. cbn [for_enumerate].
  destruct (loop_body_refines i x fr) as [[_ Hr]|[Ha Hr]].
  - destruct (loop_body printable i x fr) as [o fr1]. cbn [fst] in Hr.
    now subst o.
  - rewrite Ha in H. cbn [orb] in H. rewrite Hr.
    destruct (loop_body_accumulators i x fr) as [Hno _].
    destruct (loop_body unlimited i x fr) as [[[]| |e] fr1]; cbn [fst] in Hno;
      [now apply IH|now apply IH|exfalso; exact (Hno e eq_refl)].
Qed.

(** A call on a list in which no iteration leaves the loop goes as when
    no rendering fails. *)
Lemma run_process_stock_returns products :
  existsb aborts products = false ->
  run_process_stock printable (VList products)
  = (Return (result_of products), log_of products).
Proof.
  intros H. rewrite <- run_process_stock_unlimited.
  unfold run_process_stock. rewrite (for_enumerate_refines products _ _ H).
  reflexivity.
Qed.

(** A call on a list in which some iteration leaves the loop raises. *)
Lemma run_process_stock_raises products :
  existsb aborts products = true ->
  fst (run_process_stock printable (VList products)) = Raised ValueError.
Proof.
  intros H. unfold run_process_stock.
  match goal with
  | |- context [for_enumerate (loop_body printable) 0 products ?fr0] =>
      pose proof (for_enumerate_aborts products 0 fr0 H) as Hr;
      destruct (for_enumerate (loop_body printable) 0 products fr0) as [o fr]
  end.
  cbn [fst] in Hr. now subst o.
Qed.

(** [process_stock] on a list. *)
Lemma process_stock_cases products :
  process_stock (VList products)
  = if existsb aborts products then Raised ValueError
    else Return (result_of products).
Proof.
  unfold process_stock. destruct (existsb aborts products) eqn:H.
  - now apply run_process_stock_raises.
  - now rewrite run_process_stock_returns.
Qed.

Lemma process_stock_inv products r :
  process_stock (VList products) = Return r ->
  existsb aborts products = false /\ r = result_of products.
Proof.
  rewrite process_stock_cases. destruct (existsb aborts products);
    [discriminate|]. intros H. now inversion H.
Qed.

Lemma process_stock_intro products :
  existsb aborts products = false ->
  process_stock (VList products) = Return (result_of products).
Proof. intros H. now rewrite process_stock_cases, H. Qed.

Lemma run_process_stock_inv products r log :
  run_process_stock printable (VList products) = (Return r, log) ->
  existsb aborts products = false
  /\ r = result_of products /\ log = log_of products.
Proof.
  intros H. destruct (existsb aborts products) eqn:Ha.
  - pose proof (run_process_stock_raises products Ha) as Hr.
    rewrite H in Hr. discriminate.
  - rewrite (run_process_stock_returns products Ha) in H. now inversion H.
Qed.

Lemma aborts_app l1 l2 :
  existsb aborts (l1 ++ l2) = existsb aborts l1 || existsb aborts l2.
Proof. apply existsb_app. Qed.

Lemma aborts_insert before x after :
  existsb aborts (before ++ x :: after) = false ->
  existsb aborts before = false /\ aborts x = false
  /\ existsb aborts after = false.
Proof.
  rewrite aborts_app. cbn [existsb]. intros H.
  apply orb_false_iff in H. destruct H as [Hb H].
  apply orb_false_iff in H. tauto.
Qed.

(* ------------------------------------------------------------------ *)
(** ** Valid records *)

Lemma validate_inv x id price_float quantity :
  validate x = Some (id, price_float, quantity) ->
  exists price stock_quantity f,
    x = VTuple [VStr id; price; stock_quantity]
    /\ PyStr.truthy (PyStr.strip id) = true
    /\ py_float price = Return f
    /\ price_float = (if lt f zero then zero else f)
    /\ as_int stock_quantity = Some quantity.
Proof.
  unfold validate.
  destruct x as [ |? |? |? |? |items|? |? ]; try discriminate.
  destruct items as [|a [|b [|c [|d items]]]]; try discriminate.
  destruct a as [ |? |? |? |s|? |? |? ]; try discriminate.
  destruct (PyStr.truthy (PyStr.strip s)) eqn:Hid; try discriminate.
  destruct (py_float b) as [f|e] eqn:Hf; try discriminate.
  destruct (as_int c) as [q|] eqn:Hq; try discriminate.
  intros E. inversion E; subst. exists b, c, f. auto.
Qed.

Lemma validate_intro id price stock_quantity f quantity :
  PyStr.truthy (PyStr.strip id) = true ->
  py_float price = Return f ->
  as_int stock_quantity = Some quantity ->
  validate (VTuple [VStr id; price; stock_quantity])
  = Some (id, if lt f zero then zero else f, quantity).
Proof. intros Hid Hf Hq. unfold validate. now rewrite Hid, Hf, Hq. Qed.

Lemma fails_validation_validate x : fails_validation x -> validate x = None.
Proof.
  intros H.
  destruct (validate x) as [[[id pf] q]|] eqn:E; [exfalso|reflexivity].
  apply validate_inv in E.
  destruct E as (price & stock_quantity & f & -> & Hid & Hf & _ & Hq).
  inversion H as [x Hx|a b c Ha|a b c e Hb|a b c Hc]; subst.
  - exact (Hx _ _ _ eq_refl).
  - rewrite (Ha id eq_refl) in Hid. discriminate.
  - congruence.
  - congruence.
Qed.

Lemma clamped_not_negative f : lt (if lt f zero then zero else f) zero = false.
Proof. destruct (lt f zero) eqn:E; [reflexivity|exact E]. Qed.

Lemma contribution_inv x v :
  contribution x = Some v ->
  exists id price_float quantity y,
    validate x = Some (id, price_float, quantity)
    /\ lt price_float zero = false
    /\ sign_clear y = true /\ is_finite y = true
    /\ v = mul price_float y.
Proof.
  unfold contribution.
  destruct (validate x) as [[[id pf] q]|] eqn:E; [|discriminate].
  unfold stock_value_of, float_mul_int.
  destruct (of_int (if q <? 0 then 0 else q)) as [y|] eqn:Ey; [|discriminate].
  intros Hv. inversion Hv; subst.
  apply validate_inv in E as E'.
  destruct E' as (price & stock_quantity & f & _ & _ & _ & -> & _).
  apply of_int_nonneg in Ey; [|destruct (Z.ltb_spec q 0); lia].
  exists id, (if lt f zero then zero else f), q, y.
  repeat split; try tauto. apply clamped_not_negative.
Qed.

Lemma sum_from_weak products : forall t,
  is_nan t || sign_clear t = true ->
  is_nan (sum_from t products) || sign_clear (sum_from t products) = true.
Proof.
  induction products as [|x xs IH]; intros t Ht; [exact Ht|].
  change (sum_from t (x :: xs))
    with (sum_from (match contribution x with
                    | Some v => add t v | None => t end) xs).
  apply IH. destruct (contribution x) as [v|] eqn:Ev; [|exact Ht].
  apply contribution_inv in Ev.
  destruct Ev as (id & pf & q & y & _ & Hpf & Hy & _ & ->).
  apply add_weak; [exact Ht|]. now apply mul_weak.
Qed.

Lemma sum_from_sign_clear products : forall t,
  finite_prices products = true ->
  sign_clear t = true -> sign_clear (sum_from t products) = true.
Proof.
  induction products as [|x xs IH]; intros t Hfin Ht; [exact Ht|].
  change (sum_from t (x :: xs))
    with (sum_from (match contribution x with
                    | Some v => add t v | None => t end) xs).
  cbn [finite_prices forallb] in Hfin. apply andb_true_iff in Hfin.
  destruct Hfin as [Hx Hxs].
  apply IH; [exact Hxs|]. destruct (contribution x) as [v|] eqn:Ev; [|exact Ht].
  apply contribution_inv in Ev.
  destruct Ev as (id & pf & q & y & Hval & Hpf & Hy & Hyf & ->).
  rewrite Hval in Hx.
  apply add_sign_clear; [exact Ht|]. now apply mul_term_ok.
Qed.

(* ------------------------------------------------------------------ *)
(** ** C1: the sign of the total *)

(** C1, as stated, fails: a price of NaN is not negative, so it is not
    clamped, and the total of the batch is NaN, for which
    [total_value >= 0] is false. *)
Lemma total_value_nan_counterexample :
  process_stock (VList [StockData "p001" (VStr "nan") 1])
  = Return (Build_StockResult nan [] ["p001"] [])
  /\ ge nan zero = false.
Proof. split; vm_compute; reflexivity. Qed.

(** C1, amended: whenever [process_stock] returns a result on a list, its
    [total_value] is never less than 0 (it is [>= 0] or NaN), and
    [total_value >= 0] holds whenever no valid record of the batch has a
    price that normalizes to NaN or to +infinity. *)
Theorem total_value_never_negative products r :
  process_stock (VList products) = Return r ->
  lt (total_value r) zero = false
  /\ (finite_prices products = true -> ge (total_value r) zero = true).
Proof.
  intros Hr. apply process_stock_inv in Hr. destruct Hr as [_ ->].
  unfold result_of. cbn [total_value]. split.
  - apply sign_clear_not_lt, round2_weak, sum_from_weak. reflexivity.
  - intros Hfin. apply sign_clear_ge, round2_sign_clear.
    now apply sum_from_sign_clear.
Qed.

Lemma total_value_never_negative_witness :
  let products :=
    [StockData "p001" (F "-100.00") 5; StockData "p002" (F "50.00") (-3);
     StockData "p003" (VStr "19.99") 2] in
  let r := Build_StockResult (flit "39.98") [] ["p001"; "p003"] ["p002"] in
  process_stock (VList products) = Return r
  /\ finite_prices products = true
  /\ lt (total_value r) zero = false
  /\ ge (total_value r) zero = true.
Proof.
  intros products r.
  assert (process_stock (VList products) = Return r) as Hr
    by (vm_compute; reflexivity).
  assert (finite_prices products = true) as Hfin by (vm_compute; reflexivity).
  destruct (total_value_never_negative products r Hr) as [Hlt Hge].
  auto.
Defined.

(* ------------------------------------------------------------------ *)
(** ** C2: one category per record *)





Lemma In_category_ids category id products :
  In id (category_ids category products) <->
  exists x price_float quantity,
    In x products /\ validate x = Some (id, price_float, quantity)
    /\ category quantity = true.
Proof.
  unfold category_ids. rewrite in_flat_map. split.
  - intros (x & Hin & Hid).
    destruct (validate x) as [[[i p] q]|] eqn:Hv; [|contradiction].
    destruct (category q) eqn:Hc; [|contradiction].
    destruct Hid as [->|[]]. exists x, p, q. auto.
  - intros (x & p & q & Hin & Hv & Hc).
    exists x. split; [exact Hin|]. rewrite Hv, Hc. now left.
Qed.






(* ------------------------------------------------------------------ *)
(** ** C3: the type of the argument *)

(** C3, as stated, fails: a tuple of records is an iterable sequence of
    records, and [process_stock] raises [TypeError] on it. *)
Lemma tuple_input_counterexample :
  is_sequence (VTuple [StockData "p001" (F "100.00") 5]) = true
  /\ process_stock (VTuple [StockData "p001" (F "100.00") 5]) = Raised TypeError.
Proof. split; reflexivity. Qed.

(** C3, amended: [process_stock] raises [TypeError] if and only if its
    argument is not a [list]; when it does, nothing has been produced,
    not even a log record. *)
Theorem type_error_iff_not_a_list v :
  (process_stock v = Raised TypeError <-> is_list v = false)
  /\ (is_list v = false ->
      run_process_stock printable v = (Raised TypeError, [])).
Proof.
  destruct v as [ |? |? |? |? |? |products|? ];
    try (split; [split; reflexivity|reflexivity]).
  split; [|discriminate]. rewrite process_stock_cases.
  destruct (existsb aborts products); split; discriminate.
Qed.

(* ------------------------------------------------------------------ *)
(** ** C4: a record that does not render aborts the batch *)

(** C4: the claim that no list makes [process_stock] raise fails on the
    code.  An integer of more than 4300 digits in a record makes the
    f-string of the diagnostic raise ValueError; the handler of line 140
    evaluates an f-string with the same record, raises again, and the
    exception leaves [process_stock], also when the other records are
    valid. *)
Theorem unrenderable_record_aborts_the_batch :
  process_stock (VList [VInt (10 ^ 4300)]) = Raised ValueError
  /\ process_stock
       (VList [StockData "p001" (F "100.00") 5; VInt (10 ^ 4300);
               StockData "p002" (F "50.00") 0])
     = Raised ValueError
  /\ process_stock (VList [StockData "p001" (F "1.0") (- 10 ^ 5000)])
     = Raised ValueError.
Proof. split; [|split]; vm_compute; reflexivity. Qed.
(* ------------------------------------------------------------------ *)
(** ** Batches and their parts *)

Lemma sum_from_valid_subset products : forall t,
  sum_from t (valid_subset products) = sum_from t products.
Proof.
  induction products as [|x xs IH]; intros t; [reflexivity|].
  cbn [valid_subset filter]. unfold sum_from at 2. cbn [fold_left].
  unfold contribution at 2.
  destruct (validate x) as [[[id pf] q]|] eqn:Hv.
  - unfold sum_from at 1. cbn [fold_left]. unfold contribution at 2.
    rewrite Hv. apply IH.
  - apply IH.
Qed.

Lemma category_ids_valid_subset category products :
  category_ids category (valid_subset products) = category_ids category products.
Proof.
  induction products as [|x xs IH]; [reflexivity|].
  cbn [valid_subset filter category_ids flat_map].
  destruct (validate x) as [[[id pf] q]|] eqn:Hv.
  - cbn [flat_map]. rewrite Hv. f_equal. exact IH.
  - exact IH.
Qed.

Lemma result_of_valid_subset products :
  result_of (valid_subset products) = result_of products.
Proof.
  unfold result_of.
  now rewrite sum_from_valid_subset, !category_ids_valid_subset.
Qed.

Lemma aborts_valid_subset products :
  existsb aborts products = false ->
  existsb aborts (valid_subset products) = false.
Proof.
  induction products as [|x xs IH]; [reflexivity|].
  cbn [existsb valid_subset filter]. intros H.
  apply orb_false_iff in H. destruct H as [Hx Hxs].
  destruct (validate x); [|auto]. cbn [existsb]. rewrite Hx. auto.
Qed.

Lemma sum_from_skip t x : validate x = None -> sum_from t [x] = t.
Proof. intros H. unfold sum_from, contribution. cbn. now rewrite H. Qed.

Lemma category_ids_skip category x :
  validate x = None -> category_ids category [x] = [].
Proof. intros H. unfold category_ids. cbn. now rewrite H. Qed.

Lemma sum_from_insert t before x after :
  sum_from t (before ++ x :: after)
  = sum_from (sum_from (sum_from t before) [x]) after.
Proof.
  change (x :: after) with ([x] ++ after). now rewrite !sum_from_app.
Qed.

Lemma category_ids_insert category before x after :
  category_ids category (before ++ x :: after)
  = category_ids category before ++ category_ids category [x]
      ++ category_ids category after.
Proof.
  change (x :: after) with ([x] ++ after). now rewrite !category_ids_app.
Qed.

(** A record that fails validation can be taken out of the batch. *)
Lemma result_of_skip before x after :
  validate x = None ->
  result_of (before ++ x :: after) = result_of (before ++ after).
Proof.
  intros H. unfold result_of.
  now rewrite sum_from_insert, !category_ids_insert, sum_from_app,
    !category_ids_app, !category_ids_skip, !sum_from_skip by exact H.
Qed.

(** Two records that validate to the same locals are interchangeable. *)
Lemma result_of_same_locals before x y after :
  validate x = validate y ->
  result_of (before ++ x :: after) = result_of (before ++ y :: after).
Proof.
  intros H. unfold result_of. rewrite !sum_from_insert, !category_ids_insert.
  unfold sum_from at 2 5. unfold contribution, category_ids.
  cbn [fold_left flat_map]. now rewrite H.
Qed.

Lemma process_stock_same_locals before x y after :
  validate x = validate y -> aborts x = aborts y ->
  process_stock (VList (before ++ x :: after))
  = process_stock (VList (before ++ y :: after)).
Proof.
  intros Hv Ha. rewrite !process_stock_cases, !aborts_app. cbn [existsb].
  now rewrite Ha, (result_of_same_locals before x y after Hv).
Qed.

Lemma category_ids_single category x id price_float quantity :
  validate x = Some (id, price_float, quantity) ->
  category_ids category [x] = if category quantity then [id] else [].
Proof.
  intros Hv. unfold category_ids. cbn [flat_map]. rewrite Hv.
  now rewrite app_nil_r.
Qed.

Lemma append_if_app (b : bool) (l : list string) (id : string) :
  l ++ (if b then [id] else []) = append_if b l id.
Proof. unfold append_if. destruct b; [reflexivity|apply app_nil_r]. Qed.

(** What appending one valid record to a batch does to the sequences. *)
Lemma result_of_append before x id price_float quantity :
  validate x = Some (id, price_float, quantity) ->
  out_of_stock_items (result_of (before ++ [x]))
  = append_if (is_out_of_stock quantity)
      (out_of_stock_items (result_of before)) id
  /\ low_stock_items (result_of (before ++ [x]))
     = append_if (is_low_stock quantity) (low_stock_items (result_of before)) id
  /\ negative_stock_items (result_of (before ++ [x]))
     = append_if (is_negative_stock quantity)
         (negative_stock_items (result_of before)) id.
Proof.
  intros Hv. unfold result_of.
  cbn [out_of_stock_items low_stock_items negative_stock_items].
  rewrite !category_ids_app, !(category_ids_single _ x id price_float quantity Hv),
    !append_if_app. auto.
Qed.

Lemma result_of_single x id price_float quantity v :
  validate x = Some (id, price_float, quantity) ->
  stock_value_of price_float quantity = Some v ->
  result_of [x]
  = Build_StockResult
      (round2 (add zero v))
      (if is_out_of_stock quantity then [id] else [])
      (if is_low_stock quantity then [id] else [])
      (if is_negative_stock quantity then [id] else []).
Proof.
  intros Hv Hs. unfold result_of.
  rewrite !(category_ids_single _ x id price_float quantity Hv).
  unfold sum_from, contribution. cbn [fold_left]. now rewrite Hv, Hs.
Qed.

(* ------------------------------------------------------------------ *)
(** ** Records that add a zero to the total *)

Lemma add_zero_r t s :
  is_nan t || sign_clear t = true -> add t (S754_zero s) = t.
Proof.
  destruct t as [[]|[]| |[] m e]; cbn; try discriminate; intros _;
    destruct s; reflexivity.
Qed.

Lemma mul_finite_zero p y :
  is_finite p = true -> y = zero \/ (p = zero /\ is_finite y = true) ->
  exists s, mul p y = S754_zero s.
Proof.
  intros Hp [->|[-> Hy]].
  - destruct p as [s|s| |s m e]; try discriminate; cbn; eauto.
  - destruct y as [s|s| |s m e]; try discriminate; cbn; eauto.
Qed.

(** A processed record whose clamped price is 0.0, or whose effective
    stock is 0 while its price is finite, leaves the running total as it
    is. *)
Lemma sum_from_zero_term t x id price_float quantity :
  is_nan t || sign_clear t = true ->
  validate x = Some (id, price_float, quantity) ->
  is_finite price_float = true ->
  price_float = zero \/ quantity <= 0 ->
  sum_from t [x] = t.
Proof.
  intros Ht Hv Hfin Hz. unfold sum_from, contribution. cbn [fold_left].
  rewrite Hv. unfold stock_value_of, float_mul_int.
  destruct (of_int (if quantity <? 0 then 0 else quantity)) as [y|] eqn:Ey;
    [|reflexivity].
  assert (exists s, mul price_float y = S754_zero s) as [s ->].
  { apply mul_finite_zero; [exact Hfin|].
    destruct Hz as [->|Hq].
    - right. split; [reflexivity|].
      apply of_int_nonneg in Ey; [tauto|destruct (Z.ltb_spec quantity 0); lia].
    - left. replace (if quantity <? 0 then 0 else quantity) with 0 in Ey
        by (destruct (Z.ltb_spec quantity 0); lia).
      rewrite of_int_0 in Ey. now inversion Ey. }
  now apply add_zero_r.
Qed.

Lemma sum_from_reachable products :
  is_nan (sum_from zero products) || sign_clear (sum_from zero products) = true.
Proof. now apply sum_from_weak. Qed.

(** A record that adds a zero to the total leaves the total of the whole
    batch as it is without the record. *)
Lemma total_value_zero_term before x after id price_float quantity :
  validate x = Some (id, price_float, quantity) ->
  is_finite price_float = true ->
  price_float = zero \/ quantity <= 0 ->
  total_value (result_of (before ++ x :: after))
  = total_value (result_of (before ++ after)).
Proof.
  intros Hv Hfin Hz. unfold result_of. cbn [total_value].
  rewrite sum_from_insert, sum_from_app.
  rewrite (sum_from_zero_term _ x id price_float quantity
             (sum_from_reachable before) Hv Hfin Hz).
  reflexivity.
Qed.

Lemma aborts_without before x after :
  existsb aborts (before ++ x :: after) = false ->
  existsb aborts (before ++ after) = false.
Proof.
  intros H. apply aborts_insert in H. destruct H as (Hb & _ & Ha).
  now rewrite aborts_app, Hb, Ha.
Qed.

Lemma aborts_single x : aborts x = false -> existsb aborts [x] = false.
Proof. intros H. cbn [existsb]. now rewrite H. Qed.

Lemma aborts_snoc before x :
  existsb aborts (before ++ [x]) = false ->
  existsb aborts before = false /\ aborts x = false.
Proof. intros H. apply aborts_insert in H. tauto. Qed.


(* ------------------------------------------------------------------ *)
(** ** C5: a record that fails validation leaves no trace *)

(** C5: a record that fails a validation step contributes nothing:
    whenever [process_stock] returns a result on a batch that contains
    the record, it returns the same result on the batch without it, and
    on the record alone it returns a zero total and three empty
    sequences. *)
Theorem failed_validation_contributes_nothing x before after r :
  fails_validation x ->
  process_stock (VList (before ++ x :: after)) = Return r ->
  process_stock (VList (before ++ after)) = Return r
  /\ process_stock (VList [x]) = Return (Build_StockResult zero [] [] []).
Proof.
  intros H Hr. apply fails_validation_validate in H.
  apply process_stock_inv in Hr. destruct Hr as [Ha ->].
  rewrite (process_stock_intro _ (aborts_without _ _ _ Ha)).
  apply aborts_insert in Ha. destruct Ha as (_ & Hx & _).
  rewrite (process_stock_intro _ (aborts_single _ Hx)).
  rewrite (result_of_skip before x after H).
  split; [reflexivity|].
  rewrite (result_of_skip [] x [] H : result_of [x] = result_of []).
  reflexivity.
Qed.

Lemma failed_validation_contributes_nothing_witness :
  let x := StockData "p002" (VStr "invalid") 3 in
  let before := [StockData "p001" (F "100.00") 5] in
  let after := [StockData "p003" (F "50.00") 0] in
  let r := Build_StockResult (flit "500.0") ["p003"] ["p001"] [] in
  fails_validation x
  /\ process_stock (VList (before ++ x :: after)) = Return r
  /\ process_stock (VList (before ++ after)) = Return r
  /\ process_stock (VList [x]) = Return (Build_StockResult zero [] [] []).
Proof.
  intros x before after r.
  assert (fails_validation x) as H
    by (apply (bad_price _ _ _ ValueError); reflexivity).
  assert (process_stock (VList (before ++ x :: after)) = Return r) as Hr
    by (vm_compute; reflexivity).
  split; [exact H|]. split; [exact Hr|].
  exact (failed_validation_contributes_nothing x before after r H Hr).
Defined.

(* ------------------------------------------------------------------ *)
(** ** C7: the sequences follow the input order *)

Lemma category_ids_matching category products :
  category_ids category products = matching category (valid_records products).
Proof.
  unfold matching. induction products as [|x xs IH]; [reflexivity|].
  cbn [category_ids valid_records flat_map].
  destruct (validate x) as [[[id pf] q]|].
  - cbn [app filter]. destruct (category q); cbn [map app]; now f_equal.
  - exact IH.
Qed.

(** C7: whenever [process_stock] returns a result, each of its three
    sequences is the list of the identifiers of the valid records whose
    quantity falls in the category, in the order in which the records
    occur in the input. *)
Theorem categories_preserve_input_order products r :
  process_stock (VList products) = Return r ->
  out_of_stock_items r = matching is_out_of_stock (valid_records products)
  /\ low_stock_items r = matching is_low_stock (valid_records products)
  /\ negative_stock_items r
     = matching is_negative_stock (valid_records products).
Proof.
  intros Hr. apply process_stock_inv in Hr. destruct Hr as [_ ->].
  unfold result_of.
  cbn [out_of_stock_items low_stock_items negative_stock_items].
  now rewrite !category_ids_matching.
Qed.

Lemma categories_preserve_input_order_witness :
  let products :=
    [StockData "p003" (F "1.0") 2; StockData "p001" (F "1.0") 0;
     VStr "not a tuple"; StockData "p002" (F "1.0") 1;
     StockData "p004" (F "1.0") (-1); StockData "p000" (F "1.0") 0] in
  let r := Build_StockResult (flit "3.0") ["p001"; "p000"] ["p003"; "p002"] ["p004"] in
  process_stock (VList products) = Return r
  /\ matching is_out_of_stock (valid_records products) = ["p001"; "p000"]
  /\ matching is_low_stock (valid_records products) = ["p003"; "p002"]
  /\ matching is_negative_stock (valid_records products) = ["p004"].
Proof.
  intros products r.
  assert (process_stock (VList products) = Return r) as Hr
    by (vm_compute; reflexivity).
  destruct (categories_preserve_input_order products r Hr) as (Ho & Hl & Hn).
  split; [exact Hr|]. rewrite <- Ho, <- Hl, <- Hn. repeat split.
Defined.

(* ------------------------------------------------------------------ *)
(** ** C8: the legacy wrapper *)

(** C8: [process_stock_legacy] returns the pair of [total_value] and
    [out_of_stock_items] of the result of [process_stock] on the same
    argument, and raises exactly when [process_stock] raises. *)
Theorem process_stock_legacy_pair v :
  (forall r,
     process_stock v = Return r ->
     process_stock_legacy v = Return (total_value r, out_of_stock_items r))
  /\ (forall e,
        process_stock v = Raised e <-> process_stock_legacy v = Raised e).
Proof.
  unfold process_stock_legacy.
  destruct (process_stock v) as [r|e].
  - split; [intros r' E; now inversion E|]. split; discriminate.
  - split; [discriminate|]. intros e'. split; intros E; now inversion E.
Qed.

(* ------------------------------------------------------------------ *)
(** ** C6: a negative price is clamped, the record is kept *)




(* ------------------------------------------------------------------ *)
(** ** C9: a boolean stock quantity *)

Lemma int_str_ok_0 : int_str_ok 0 = true.
Proof. vm_compute. reflexivity. Qed.

Lemma int_str_ok_1 : int_str_ok 1 = true.
Proof. vm_compute. reflexivity. Qed.

(** [True] and [False] render as [1] and [0] do: always. *)
Lemma aborts_boolean id price (b : bool) :
  aborts (VTuple [VStr id; price; VBool b])
  = aborts (VTuple [VStr id; price; VInt (if b then 1 else 0)]).
Proof.
  unfold aborts, Frame.init. destruct b; unfold_body; reduce_body;
    rewrite ?int_str_ok_0, ?int_str_ok_1; body_cases ltac:(reflexivity).
Qed.

Lemma clamped_valid f :
  valid_binary prec emax f = true ->
  valid_binary prec emax (if lt f zero then zero else f) = true.
Proof. intros H. now destruct (lt f zero). Qed.

Lemma clamped_finite f :
  is_finite f = true -> is_finite (if lt f zero then zero else f) = true.
Proof. intros H. now destruct (lt f zero). Qed.

(** C9, as stated, fails in its last part: with an infinite price the
    record with quantity [False] is valid, is filed as out of stock, and
    turns the total into NaN instead of adding 0 to it. *)
Lemma false_quantity_counterexample :
  validate (VTuple [VStr "p001"; VFloat inf; VBool false]) = Some ("p001", inf, 0)
  /\ process_stock (VList [VTuple [VStr "p001"; VFloat inf; VBool false]])
     = Return (Build_StockResult nan ["p001"] [] [])
  /\ process_stock (VList []) = Return (Build_StockResult zero [] [] []).
Proof. split; [|split]; vm_compute; reflexivity. Qed.

(** C9, amended: a boolean stock quantity passes the integer check.  An
    otherwise valid record with quantity [True] is treated as the same
    record with quantity 1: when [process_stock] returns a result on the
    record alone, its identifier is in [low_stock_items] and its
    (clamped) price is added once to the total.  With quantity [False] it
    is treated as the same record with quantity 0: its identifier is in
    [out_of_stock_items] and the product of its price and 0 is added to
    the total, which leaves the total unchanged whenever the price is
    finite. *)
Theorem boolean_quantity id price f before after :
  PyStr.truthy (PyStr.strip id) = true ->
  py_float price = Return f ->
  valid_binary prec emax f = true ->
  let price_float := if lt f zero then zero else f in
  (process_stock (VList (before ++ VTuple [VStr id; price; VBool true] :: after))
   = process_stock (VList (before ++ VTuple [VStr id; price; VInt 1] :: after))
   /\ forall r,
        process_stock (VList [VTuple [VStr id; price; VBool true]]) = Return r ->
        r = Build_StockResult (round2 (add zero price_float)) [] [id] [])
  /\ (process_stock (VList (before ++ VTuple [VStr id; price; VBool false] :: after))
      = process_stock (VList (before ++ VTuple [VStr id; price; VInt 0] :: after))
      /\ forall r,
           process_stock (VList [VTuple [VStr id; price; VBool false]]) = Return r ->
           r = Build_StockResult (round2 (add zero (mul price_float zero)))
                 [id] [] [])
  /\ (is_finite f = true ->
      (forall r,
         process_stock (VList [VTuple [VStr id; price; VBool false]]) = Return r ->
         r = Build_StockResult zero [id] [] [])
      /\ forall r,
           process_stock
             (VList (before ++ VTuple [VStr id; price; VBool false] :: after))
           = Return r ->
           exists r',
             process_stock (VList (before ++ after)) = Return r'
             /\ total_value r = total_value r').
Proof.
  intros Hid Hf Hvalid price_float.
  pose proof (validate_intro id price (VBool true) f 1 Hid Hf eq_refl) as Ht.
  pose proof (validate_intro id price (VBool false) f 0 Hid Hf eq_refl) as Hfa.
  fold price_float in Ht, Hfa.
  assert (stock_value_of price_float 1 = Some price_float) as Hs1.
  { unfold stock_value_of, float_mul_int. cbn [Z.ltb Z.compare].
    rewrite of_int_1, mul_one; [reflexivity|]. now apply clamped_valid. }
  assert (stock_value_of price_float 0 = Some (mul price_float zero)) as Hs0
    by reflexivity.
  split; [split|split; [split|]].
  - apply process_stock_same_locals; [|exact (aborts_boolean id price true)].
    rewrite Ht. symmetry.
    exact (validate_intro id price (VInt 1) f 1 Hid Hf eq_refl).
  - intros r Hr. apply process_stock_inv in Hr. destruct Hr as [_ ->].
    exact (result_of_single _ id price_float 1 price_float Ht Hs1).
  - apply process_stock_same_locals; [|exact (aborts_boolean id price false)].
    rewrite Hfa. symmetry.
    exact (validate_intro id price (VInt 0) f 0 Hid Hf eq_refl).
  - intros r Hr. apply process_stock_inv in Hr. destruct Hr as [_ ->].
    exact (result_of_single _ id price_float 0 _ Hfa Hs0).
  - intros Hfin. apply clamped_finite in Hfin. fold price_float in Hfin. split.
    + intros r Hr. apply process_stock_inv in Hr. destruct Hr as [_ ->].
      rewrite (result_of_single _ id price_float 0 _ Hfa Hs0).
      destruct (mul_finite_zero price_float zero Hfin (or_introl eq_refl))
        as [s ->].
      now destruct s.
    + intros r Hr. apply process_stock_inv in Hr. destruct Hr as [Ha ->].
      exists (result_of (before ++ after)). split.
      * apply process_stock_intro. exact (aborts_without _ _ _ Ha).
      * eapply total_value_zero_term; [exact Hfa|exact Hfin|right; lia].
Qed.

Lemma boolean_quantity_witness :
  let xtrue := VTuple [VStr "p001"; VStr "99.99"; VBool true] in
  let xfalse := VTuple [VStr "p001"; VStr "99.99"; VBool false] in
  PyStr.truthy (PyStr.strip "p001") = true
  /\ py_float (VStr "99.99") = Return (flit "99.99")
  /\ valid_binary prec emax (flit "99.99") = true
  /\ process_stock (VList [xtrue])
     = Return (Build_StockResult (flit "99.99") [] ["p001"] [])
  /\ process_stock (VList [xfalse])
     = Return (Build_StockResult zero ["p001"] [] []).
Proof.
  intros xtrue xfalse.
  split; [reflexivity|]. split; [reflexivity|]. split; [reflexivity|].
  destruct (boolean_quantity "p001" (VStr "99.99") (flit "99.99") [] []
              eq_refl eq_refl eq_refl) as [[_ Htrue] [_ Hfalse]].
  destruct (process_stock (VList [xtrue])) as [rt|e] eqn:Et;
    [|vm_compute in Et; discriminate Et].
  destruct (process_stock (VList [xfalse])) as [rf|e] eqn:Ef;
    [|vm_compute in Ef; discriminate Ef].
  split.
  - rewrite (Htrue rt Et). reflexivity.
  - destruct (Hfalse eq_refl) as [Hsingle _]. rewrite (Hsingle rf Ef).
    reflexivity.
Defined.

(* ------------------------------------------------------------------ *)
(** ** C10: identifiers are stored as given *)

(** C10: the identifier is trimmed only to test that it is not blank.
    Whenever [process_stock] returns a result on a batch that ends with a
    valid record, the result is the one of the batch without the record
    with the string of the record itself, surrounding white space
    included, appended to the sequence of its quantity; nothing else is
    added. *)
Theorem identifier_stored_untrimmed id price f stock_quantity quantity before rx :
  PyStr.truthy (PyStr.strip id) = true ->
  py_float price = Return f ->
  as_int stock_quantity = Some quantity ->
  process_stock (VList (before ++ [VTuple [VStr id; price; stock_quantity]]))
  = Return rx ->
  exists rb,
    process_stock (VList before) = Return rb
    /\ out_of_stock_items rx
       = append_if (is_out_of_stock quantity) (out_of_stock_items rb) id
    /\ low_stock_items rx
       = append_if (is_low_stock quantity) (low_stock_items rb) id
    /\ negative_stock_items rx
       = append_if (is_negative_stock quantity) (negative_stock_items rb) id.
Proof.
  intros Hid Hf Hq Hr.
  apply process_stock_inv in Hr. destruct Hr as [Ha ->].
  apply aborts_snoc in Ha. destruct Ha as [Hb _].
  exists (result_of before). split; [now apply process_stock_intro|].
  eapply result_of_append.
  exact (validate_intro id price stock_quantity f quantity Hid Hf Hq).
Qed.

Lemma identifier_stored_untrimmed_witness :
  let rx := Build_StockResult zero ["  p001 "] [] [] in
  PyStr.strip "  p001 " = "p001"
  /\ process_stock (VList ([] ++ [StockData "  p001 " (F "100.00") 0])) = Return rx
  /\ exists rb,
       process_stock (VList []) = Return rb
       /\ out_of_stock_items rx = append_if true (out_of_stock_items rb) "  p001 "
       /\ low_stock_items rx = append_if false (low_stock_items rb) "  p001 "
       /\ negative_stock_items rx
          = append_if false (negative_stock_items rb) "  p001 ".
Proof.
  intros rx.
  assert (process_stock (VList ([] ++ [StockData "  p001 " (F "100.00") 0]))
          = Return rx) as Hr by (vm_compute; reflexivity).
  split; [reflexivity|]. split; [exact Hr|].
  exact (identifier_stored_untrimmed "  p001 " (F "100.00") (flit "100.00")
           (VInt 0) 0 [] rx eq_refl eq_refl eq_refl Hr).
Defined.
(* ------------------------------------------------------------------ *)
(** * Further properties of the module *)

(** ** The log of a call *)

Ltac counted :=
  solve [cbn; repeat split; try reflexivity; try discriminate;
         try (intros _; lia); try lia].

Lemma diagnostics_levels i product :
  count_level INFO (diagnostics i product) = 0%nat
  /\ count_level DEBUG (diagnostics i product)
     = (if is_processed product then 1 else 0)%nat
  /\ (is_processed product = false ->
      (1 <= count_level WARNING (diagnostics i product)
            + count_level ERROR (diagnostics i product))%nat)
  /\ (1 <= List.length (diagnostics i product) <= 3)%nat.
Proof.
  unfold diagnostics, Frame.init, is_processed, processed, validate,
    stock_value_of.
  body_cases counted.
Qed.

Lemma count_level_app lv l1 l2 :
  count_level lv (l1 ++ l2) = (count_level lv l1 + count_level lv l2)%nat.
Proof. unfold count_level. now rewrite filter_app, length_app. Qed.

Lemma batch_diagnostics_app l1 : forall i l2,
  batch_diagnostics i (l1 ++ l2)
  = batch_diagnostics i l1
    ++ batch_diagnostics (i + Z.of_nat (List.length l1)) l2.
Proof.
  induction l1 as [|x xs IH]; intros i l2.
  - cbn. now rewrite Z.add_0_r.
  - cbn [app batch_diagnostics List.length]. rewrite IH, <- app_assoc.
    do 3 f_equal. lia.
Qed.

Lemma processed_ids_length products :
  List.length (processed_ids products)
  = List.length (filter is_processed products).
Proof.
  unfold processed_ids, is_processed.
  induction products as [|x xs IH]; [reflexivity|].
  cbn [flat_map filter]. rewrite length_app, IH.
  now destruct (processed x) as [[[id pf] q]|].
Qed.

Lemma batch_diagnostics_levels products : forall i,
  count_level INFO (batch_diagnostics i products) = 0%nat
  /\ count_level DEBUG (batch_diagnostics i products)
     = List.length (processed_ids products)
  /\ (List.length products
      <= List.length (processed_ids products)
         + count_level WARNING (batch_diagnostics i products)
         + count_level ERROR (batch_diagnostics i products))%nat
  /\ (List.length products
      <= List.length (batch_diagnostics i products)
      <= 3 * List.length products)%nat.
Proof.
  induction products as [|x xs IH]; intros i.
  - cbn. lia.
  - destruct (IH (i + 1)) as (Hi & Hd & Hw & Hl).
    destruct (diagnostics_levels i x) as (Hi' & Hd' & Hw' & Hl').
    rewrite processed_ids_length in *.
    cbn [batch_diagnostics filter List.length].
    rewrite !count_level_app, length_app, Hi, Hi', Hd, Hd'.
    destruct (is_processed x); cbn [List.length].
    + lia.
    + specialize (Hw' eq_refl). lia.
Qed.

(** X1: when a call on a list returns, its log opens with the INFO
    record that carries [len(product_list)], closes with the INFO record
    that carries the unrounded total, whose rounding to two decimals is
    the returned [total_value], and has no other INFO record. *)
Theorem log_opens_and_closes products r log :
  run_process_stock printable (VList products) = (Return r, log) ->
  exists middle t,
    log
    = Log INFO "Processing {len(product_list)} products"
        [VInt (Z.of_nat (List.length products))]
      :: middle
      ++ [Log INFO "Processing complete. Total value: ${total_value:.2f}"
            [VFloat t]]
    /\ total_value r = round2 t
    /\ count_level INFO middle = 0%nat.
Proof.
  intros H. apply run_process_stock_inv in H. destruct H as (_ & -> & ->).
  exists (batch_diagnostics 0 products), (sum_from zero products).
  split; [reflexivity|]. split; [reflexivity|].
  apply (batch_diagnostics_levels products 0).
Qed.

Lemma log_opens_and_closes_witness :
  let products :=
    [StockData "p001" (F "100.00") 5; VStr "not a tuple";
     StockData "p003" (F "50.00") 0] in
  exists r log middle t,
    run_process_stock printable (VList products) = (Return r, log)
    /\ log
       = Log INFO "Processing {len(product_list)} products" [VInt 3]
         :: middle
         ++ [Log INFO "Processing complete. Total value: ${total_value:.2f}"
               [VFloat t]]
    /\ total_value r = round2 t.
Proof.
  intros products.
  destruct (run_process_stock printable (VList products)) as [[r|e] log] eqn:E;
    [|vm_compute in E; discriminate E].
  destruct (log_opens_and_closes products r log E) as (middle & t & Hl & Ht & _).
  exists r, log, middle, t. auto.
Defined.

(** X2: when a call on a list returns, the logger has received exactly
    one DEBUG record for each processed (valid, non-skipped) record of
    the batch, and at least one WARNING or ERROR record for each record
    that is not processed. *)
Theorem one_debug_record_per_processed_record products r log :
  run_process_stock printable (VList products) = (Return r, log) ->
  count_level DEBUG log = List.length (processed_ids products)
  /\ (List.length products - List.length (processed_ids products)
      <= count_level WARNING log + count_level ERROR log)%nat.
Proof.
  intros H. apply run_process_stock_inv in H. destruct H as (_ & _ & ->).
  unfold log_of.
  destruct (batch_diagnostics_levels products 0) as (_ & Hd & Hw & _).
  change (?a :: ?l) with ([a] ++ l).
  rewrite !count_level_app, Hd. cbn. lia.
Qed.

Lemma one_debug_record_per_processed_record_witness :
  let products :=
    [StockData "p001" (F "100.00") 5; VStr "not a tuple";
     StockData "p003" (F "50.00") 0] in
  exists r log,
    run_process_stock printable (VList products) = (Return r, log)
    /\ count_level DEBUG log = 2%nat.
Proof.
  intros products.
  destruct (run_process_stock printable (VList products)) as [[r|e] log] eqn:E;
    [|vm_compute in E; discriminate E].
  destruct (one_debug_record_per_processed_record products r log E) as [Hd _].
  exists r, log. split; [reflexivity|]. rewrite Hd. reflexivity.
Defined.

(** X3: when a call on a list of [n] products returns, the logger has
    received at least [n + 2] and at most [3 * n + 2] records: every
    iteration logs at least once and at most three times. *)
Theorem log_length_bounds products r log :
  run_process_stock printable (VList products) = (Return r, log) ->
  (List.length products + 2 <= List.length log
   <= 3 * List.length products + 2)%nat.
Proof.
  intros H. apply run_process_stock_inv in H. destruct H as (_ & _ & ->).
  unfold log_of.
  destruct (batch_diagnostics_levels products 0) as (_ & _ & _ & Hl).
  cbn [List.length]. rewrite length_app. cbn [List.length]. lia.
Qed.

Lemma log_length_bounds_witness :
  let products :=
    [StockData "p001" (F "-1.0") (-5); VTuple [VStr "p002"; VNone; VInt 1]] in
  exists r log,
    run_process_stock printable (VList products) = (Return r, log)
    /\ (4 <= List.length log <= 8)%nat.
Proof.
  intros products.
  destruct (run_process_stock printable (VList products)) as [[r|e] log] eqn:E;
    [|vm_compute in E; discriminate E].
  exists r, log. split; [reflexivity|].
  exact (log_length_bounds products r log E).
Defined.

Lemma diagnostics_not_a_3_tuple i x :
  (forall a b c, x <> VTuple [a; b; c]) ->
  diagnostics i x
  = [Log WARNING "Skipping invalid product at index {i}: {product}" [VInt i; x]].
Proof.
  intros H.
  destruct x as [ |? |? |? |? |items|? |? ]; try reflexivity.
  destruct items as [|a [|b [|c [|d items]]]]; try reflexivity.
  exfalso. exact (H a b c eq_refl).
Qed.

Lemma diagnostics_bad_identifier i product_id price stock_quantity :
  (forall id, product_id = VStr id -> PyStr.truthy (PyStr.strip id) = false) ->
  diagnostics i (VTuple [product_id; price; stock_quantity])
  = [Log WARNING "Invalid product ID at index {i}: {product_id}"
       [VInt i; product_id]].
Proof.
  intros H.
  destruct product_id as [ |? |? |? |id|? |? |? ]; try reflexivity.
  unfold diagnostics, Frame.init. unfold_body. reduce_body.
  rewrite (H id eq_refl). reflexivity.
Qed.

Lemma log_of_insert before x after :
  exists l1 l2,
    log_of (before ++ x :: after)
    = l1 ++ diagnostics (Z.of_nat (List.length before)) x ++ l2.
Proof.
  unfold log_of. rewrite batch_diagnostics_app.
  cbn [batch_diagnostics Z.add].
  exists (Log INFO "Processing {len(product_list)} products"
            [VInt (Z.of_nat (List.length (before ++ x :: after)))]
          :: batch_diagnostics 0 before).
  exists (batch_diagnostics (Z.of_nat (List.length before) + 1) after
          ++ [Log INFO "Processing complete. Total value: ${total_value:.2f}"
                [VFloat (sum_from zero (before ++ x :: after))]]).
  cbn [app]. now rewrite <- !app_assoc.
Qed.

(** X4: the index written in a diagnostic is the position of the record
    in the list, counted from 0: when the call returns, a record that is
    not a 3-tuple has been reported with it at WARNING level together
    with the record, and a 3-tuple whose identifier is not a non-blank
    string has been reported with it together with the identifier. *)
Theorem diagnostics_carry_the_position before x after r log :
  run_process_stock printable (VList (before ++ x :: after)) = (Return r, log) ->
  ((forall a b c, x <> VTuple [a; b; c]) ->
   In (Log WARNING "Skipping invalid product at index {i}: {product}"
         [VInt (Z.of_nat (List.length before)); x]) log)
  /\ (forall product_id price stock_quantity,
        x = VTuple [product_id; price; stock_quantity] ->
        (forall id, product_id = VStr id ->
                    PyStr.truthy (PyStr.strip id) = false) ->
        In (Log WARNING "Invalid product ID at index {i}: {product_id}"
              [VInt (Z.of_nat (List.length before)); product_id]) log).
Proof.
  intros Hrun. apply run_process_stock_inv in Hrun.
  destruct Hrun as (_ & _ & ->).
  destruct (log_of_insert before x after) as (l1 & l2 & ->). split.
  - intros H. rewrite (diagnostics_not_a_3_tuple _ x H).
    apply in_or_app. right. now left.
  - intros product_id price stock_quantity -> H.
    rewrite (diagnostics_bad_identifier _ product_id price stock_quantity H).
    apply in_or_app. right. now left.
Qed.

Lemma diagnostics_carry_the_position_witness :
  let before := [StockData "p001" (F "100.00") 5] in
  let after := [StockData "p003" (F "50.00") 0] in
  exists r log,
    run_process_stock printable (VList (before ++ VStr "not a tuple" :: after))
    = (Return r, log)
    /\ In (Log WARNING "Skipping invalid product at index {i}: {product}"
             [VInt 1; VStr "not a tuple"]) log.
Proof.
  intros before after.
  destruct (run_process_stock printable
              (VList (before ++ VStr "not a tuple" :: after)))
    as [[r|e] log] eqn:E; [|vm_compute in E; discriminate E].
  destruct (diagnostics_carry_the_position before (VStr "not a tuple") after
              r log E) as [Hin _].
  exists r, log. split; [reflexivity|]. apply Hin. intros a b c. discriminate.
Defined.



(** X6: a valid record whose quantity is a non-negative integer too
    large for a float makes the product of line 128 raise OverflowError;
    when the call returns, the catch-all of line 140 has reported it at
    ERROR level with the position of the record, and the result is the
    result of the batch without the record. *)
Theorem overflowing_quantity_dropped id price f stock_quantity quantity
    before after r log :
  PyStr.truthy (PyStr.strip id) = true ->
  py_float price = Return f ->
  as_int stock_quantity = Some quantity ->
  0 <= quantity ->
  of_int quantity = None ->
  run_process_stock printable
    (VList (before ++ VTuple [VStr id; price; stock_quantity] :: after))
  = (Return r, log) ->
  process_stock (VList (before ++ after)) = Return r
  /\ In (Log ERROR
           "Error processing product at index {i}: {product}. Error: {e}"
           [VInt (Z.of_nat (List.length before));
            VTuple [VStr id; price; stock_quantity]; VExn OverflowError])
        log.
Proof.
  intros Hid Hf Hq Hpos Hof Hrun.
  pose proof (validate_intro id price stock_quantity f quantity Hid Hf Hq) as Hv.
  assert ((quantity <? 0) = false) as Hneg by lia.
  apply run_process_stock_inv in Hrun. destruct Hrun as (Ha & -> & ->).
  split.
  - rewrite (process_stock_intro _ (aborts_without _ _ _ Ha)). f_equal.
    unfold result_of.
    rewrite sum_from_insert, !category_ids_insert, sum_from_app,
      !category_ids_app.
    rewrite !(category_ids_single _ _ _ _ _ Hv).
    assert (5 < quantity) as Hbig.
    { destruct (Z.leb_spec quantity 5) as [Hle|]; [|assumption].
      destruct (of_int_small quantity ltac:(lia)) as [y Hy]. congruence. }
    unfold is_out_of_stock, is_low_stock, is_negative_stock.
    replace (quantity =? 0) with false by lia.
    replace (quantity <=? 5) with false by lia.
    rewrite Hneg, andb_false_r. cbn [app].
    assert (forall t, sum_from t [VTuple [VStr id; price; stock_quantity]] = t)
      as Hskip.
    { intros t. unfold sum_from, contribution. cbn [fold_left].
      rewrite Hv. unfold stock_value_of, float_mul_int. now rewrite Hneg, Hof. }
    now rewrite Hskip.
  - destruct (log_of_insert before (VTuple [VStr id; price; stock_quantity]) after)
      as (l1 & l2 & ->).
    apply in_or_app. right. apply in_or_app. left.
    unfold diagnostics, Frame.init. unfold_body. reduce_body.
    rewrite Hid, Hf. reduce_body.
    destruct (lt f zero); reduce_body; rewrite Hq; reduce_body;
      rewrite Hneg; reduce_body; rewrite Hof; cbn; auto.
Qed.

Lemma overflowing_quantity_dropped_witness :
  let before := [StockData "p001" (F "100.00") 5] in
  let after := [StockData "p003" (F "50.00") 0] in
  of_int (2 ^ 1024) = None
  /\ exists r log,
       run_process_stock printable
         (VList (before ++ VTuple [VStr "p002"; F "1.0"; VInt (2 ^ 1024)] :: after))
       = (Return r, log)
       /\ process_stock (VList (before ++ after)) = Return r.
Proof.
  intros before after.
  split; [reflexivity|].
  destruct (run_process_stock printable
              (VList (before ++ VTuple [VStr "p002"; F "1.0"; VInt (2 ^ 1024)]
                        :: after)))
    as [[r|e] log] eqn:E; [|vm_compute in E; discriminate E].
  assert (0 <= 2 ^ 1024) as Hpos by (vm_compute; discriminate).
  destruct (overflowing_quantity_dropped "p002" (F "1.0") (flit "1.0")
              (VInt (2 ^ 1024)) (2 ^ 1024) before after r log
              eq_refl eq_refl eq_refl Hpos eq_refl E) as [Hr _].
  exists r, log. auto.
Defined.




(* ------------------------------------------------------------------ *)
(** ** Batches and their parts *)

(** X8: when [process_stock] returns on a concatenated batch, it returns
    on its two parts, and the category sequences of the whole are the
    concatenations of the category sequences of the parts. *)
Theorem categories_of_concatenation l1 l2 r :
  process_stock (VList (l1 ++ l2)) = Return r ->
  exists r1 r2,
    process_stock (VList l1) = Return r1
    /\ process_stock (VList l2) = Return r2
    /\ out_of_stock_items r = out_of_stock_items r1 ++ out_of_stock_items r2
    /\ low_stock_items r = low_stock_items r1 ++ low_stock_items r2
    /\ negative_stock_items r
       = negative_stock_items r1 ++ negative_stock_items r2.
Proof.
  intros Hr. apply process_stock_inv in Hr. destruct Hr as [Ha ->].
  rewrite aborts_app in Ha. apply orb_false_iff in Ha. destruct Ha as [H1 H2].
  exists (result_of l1), (result_of l2).
  split; [now apply process_stock_intro|].
  split; [now apply process_stock_intro|].
  unfold result_of.
  cbn [out_of_stock_items low_stock_items negative_stock_items].
  now rewrite !category_ids_app.
Qed.

Lemma categories_of_concatenation_witness :
  let l1 := [StockData "p001" (F "100.00") 0; StockData "p002" (F "50.00") 3] in
  let l2 := [StockData "p003" (F "1.0") 0; StockData "p004" (F "1.0") (-1)] in
  exists r r1 r2,
    process_stock (VList (l1 ++ l2)) = Return r
    /\ process_stock (VList l1) = Return r1
    /\ process_stock (VList l2) = Return r2
    /\ out_of_stock_items r = out_of_stock_items r1 ++ out_of_stock_items r2.
Proof.
  intros l1 l2.
  destruct (process_stock (VList (l1 ++ l2))) as [r|e] eqn:E;
    [|vm_compute in E; discriminate E].
  destruct (categories_of_concatenation l1 l2 r E)
    as (r1 & r2 & H1 & H2 & Ho & _).
  exists r, r1, r2. auto.
Defined.

Lemma valid_records_length products :
  (List.length (valid_records products) <= List.length products)%nat.
Proof.
  unfold valid_records. induction products as [|x xs IH]; [reflexivity|].
  cbn [flat_map List.length]. rewrite length_app.
  destruct (validate x) as [record|]; cbn [List.length]; lia.
Qed.

Lemma matching_lengths records :
  (List.length (matching is_out_of_stock records)
   + List.length (matching is_low_stock records)
   + List.length (matching is_negative_stock records))%nat
  = List.length (filter (fun '(_, _, quantity) => quantity <=? 5) records).
Proof.
  unfold matching. rewrite !length_map.
  induction records as [|[[id pf] q] rs IH]; [reflexivity|].
  cbn [filter]. pose proof (category_exclusive q) as Hx.
  destruct (is_out_of_stock q), (is_low_stock q), (is_negative_stock q),
    (q <=? 5); cbn [List.length]; try discriminate; lia.
Qed.

(** X9: in a returned result the three sequences together hold exactly
    one entry for each valid record whose quantity is at most 5, so their
    lengths add up to at most the length of the batch. *)
Theorem sequences_total_length products r :
  process_stock (VList products) = Return r ->
  (List.length (out_of_stock_items r) + List.length (low_stock_items r)
   + List.length (negative_stock_items r))%nat
  = List.length
      (filter (fun '(_, _, quantity) => quantity <=? 5)
         (valid_records products))
  /\ (List.length (out_of_stock_items r) + List.length (low_stock_items r)
      + List.length (negative_stock_items r)
      <= List.length products)%nat.
Proof.
  intros Hr. apply process_stock_inv in Hr. destruct Hr as [_ ->].
  unfold result_of.
  cbn [out_of_stock_items low_stock_items negative_stock_items].
  rewrite !category_ids_matching, matching_lengths. split; [reflexivity|].
  pose proof (filter_length_le (fun '(_, _, quantity) => quantity <=? 5)
                (valid_records products)).
  pose proof (valid_records_length products). lia.
Qed.

Lemma sequences_total_length_witness :
  let products :=
    [StockData "p001" (F "100.00") 5; StockData "p002" (F "50.00") 0;
     StockData "p003" (F "1.0") (-2); StockData "p004" (F "1.0") 6;
     VStr "not a tuple"] in
  exists r,
    process_stock (VList products) = Return r
    /\ (List.length (out_of_stock_items r) + List.length (low_stock_items r)
        + List.length (negative_stock_items r))%nat = 3%nat.
Proof.
  intros products.
  destruct (process_stock (VList products)) as [r|e] eqn:E;
    [|vm_compute in E; discriminate E].
  destruct (sequences_total_length products r E) as [Hlen _].
  exists r. split; [reflexivity|]. rewrite Hlen. reflexivity.
Defined.

Lemma count_occ_matching category id records :
  count_occ string_dec (matching category records) id
  = List.length
      (filter (fun '(i, _, quantity) => String.eqb i id && category quantity)
         records).
Proof.
  unfold matching.
  induction records as [|[[i pf] q] rs IH]; [reflexivity|].
  cbn [filter]. destruct (category q); cbn [map count_occ].
  - destruct (string_dec i id) as [->|Hne].
    + rewrite String.eqb_refl. cbn. now rewrite IH.
    + apply String.eqb_neq in Hne. rewrite Hne. exact IH.
  - rewrite andb_false_r. exact IH.
Qed.

(** X10: identifiers are not merged: in a returned result an identifier
    occurs in a category sequence as many times as there are valid
    records with that identifier whose quantity falls in the category. *)
Theorem repeated_identifiers_are_kept products r id :
  process_stock (VList products) = Return r ->
  count_occ string_dec (out_of_stock_items r) id
  = List.length
      (filter (fun '(i, _, quantity) =>
                 String.eqb i id && is_out_of_stock quantity)
         (valid_records products))
  /\ count_occ string_dec (low_stock_items r) id
     = List.length
         (filter (fun '(i, _, quantity) =>
                    String.eqb i id && is_low_stock quantity)
            (valid_records products))
  /\ count_occ string_dec (negative_stock_items r) id
     = List.length
         (filter (fun '(i, _, quantity) =>
                    String.eqb i id && is_negative_stock quantity)
            (valid_records products)).
Proof.
  intros Hr. apply process_stock_inv in Hr. destruct Hr as [_ ->].
  unfold result_of.
  cbn [out_of_stock_items low_stock_items negative_stock_items].
  now rewrite !category_ids_matching, !count_occ_matching.
Qed.

Lemma repeated_identifiers_are_kept_witness :
  let products :=
    [StockData "p001" (F "1.0") 0; StockData "p002" (F "1.0") 0;
     StockData "p001" (F "2.0") 0] in
  exists r,
    process_stock (VList products) = Return r
    /\ count_occ string_dec (out_of_stock_items r) "p001" = 2%nat.
Proof.
  intros products.
  destruct (process_stock (VList products)) as [r|e] eqn:E;
    [|vm_compute in E; discriminate E].
  destruct (repeated_identifiers_are_kept products r "p001" E) as [Ho _].
  exists r. split; [reflexivity|]. rewrite Ho. reflexivity.
Defined.

(** X11: in a returned result an identifier is reported out of stock
    exactly when some valid record of the batch carries it with quantity
    0, low on stock exactly when some valid record carries it with a
    quantity from 1 to 5, and with negative stock exactly when some valid
    record carries it with a quantity below 0. *)
Theorem reported_iff_some_record products r id :
  process_stock (VList products) = Return r ->
  (In id (out_of_stock_items r) <->
   exists x price_float,
     In x products /\ validate x = Some (id, price_float, 0))
  /\ (In id (low_stock_items r) <->
      exists x price_float quantity,
        In x products /\ validate x = Some (id, price_float, quantity)
        /\ 1 <= quantity <= 5)
  /\ (In id (negative_stock_items r) <->
      exists x price_float quantity,
        In x products /\ validate x = Some (id, price_float, quantity)
        /\ quantity < 0).
Proof.
  intros Hr. apply process_stock_inv in Hr. destruct Hr as [_ ->].
  unfold result_of.
  cbn [out_of_stock_items low_stock_items negative_stock_items].
  rewrite !In_category_ids.
  unfold is_out_of_stock, is_low_stock, is_negative_stock.
  split; [|split]; split.
  - intros (x & p & q & Hin & Hv & Hc). apply Z.eqb_eq in Hc. subst q. eauto.
  - intros (x & p & Hin & Hv). exists x, p, 0. auto.
  - intros (x & p & q & Hin & Hv & Hc). exists x, p, q.
    repeat split; auto; lia.
  - intros (x & p & q & Hin & Hv & Hc). exists x, p, q.
    repeat split; auto; lia.
  - intros (x & p & q & Hin & Hv & Hc). exists x, p, q.
    repeat split; auto; lia.
  - intros (x & p & q & Hin & Hv & Hc). exists x, p, q.
    repeat split; auto; lia.
Qed.

Lemma reported_iff_some_record_witness :
  let products :=
    [StockData "p001" (F "1.0") 7; StockData "p002" (F "1.0") (-3)] in
  exists r,
    process_stock (VList products) = Return r
    /\ In "p002" (negative_stock_items r).
Proof.
  intros products.
  destruct (process_stock (VList products)) as [r|e] eqn:E;
    [|vm_compute in E; discriminate E].
  destruct (reported_iff_some_record products r "p002" E) as (_ & _ & Hn).
  exists r. split; [reflexivity|]. apply Hn.
  exists (StockData "p002" (F "1.0") (-3)), (flit "1.0"), (-3).
  split; [cbn; tauto|]. split; [reflexivity|lia].
Defined.

Lemma valid_subset_nil products :
  Forall fails_validation products -> valid_subset products = [].
Proof.
  induction 1 as [|x xs Hx _ IH]; [reflexivity|].
  cbn [valid_subset filter]. now rewrite (fails_validation_validate x Hx).
Qed.

(** X12: a batch in which every record fails validation, however long,
    yields a zero total and three empty sequences whenever
    [process_stock] returns on it. *)
Theorem all_invalid_batch products r :
  Forall fails_validation products ->
  process_stock (VList products) = Return r ->
  r = Build_StockResult zero [] [] [].
Proof.
  intros H Hr. apply process_stock_inv in Hr. destruct Hr as [_ ->].
  rewrite <- result_of_valid_subset, (valid_subset_nil products H).
  reflexivity.
Qed.

Lemma all_invalid_batch_witness :
  let products :=
    [VStr "not a tuple"; VTuple [VStr "p001"; F "100.00"];
     VTuple [VStr "  "; F "1.0"; VInt 1]; VTuple [VStr "p002"; VNone; VInt 1];
     VTuple [VStr "p003"; F "1.0"; F "2.0"]] in
  Forall fails_validation products
  /\ process_stock (VList products) = Return (Build_StockResult zero [] [] []).
Proof.
  intros products.
  assert (Forall fails_validation products) as H.
  { apply Forall_cons; [apply not_a_3_tuple; discriminate|].
    apply Forall_cons; [apply not_a_3_tuple; discriminate|].
    apply Forall_cons;
      [apply bad_identifier; intros id E; inversion E; subst; reflexivity|].
    apply Forall_cons; [apply (bad_price _ _ _ TypeError); reflexivity|].
    apply Forall_cons; [apply bad_quantity; reflexivity|].
    apply Forall_nil. }
  split; [exact H|].
  destruct (process_stock (VList products)) as [r|e] eqn:E;
    [|vm_compute in E; discriminate E].
  f_equal. exact (all_invalid_batch products r H E).
Defined.

(** X19: the result reflects the valid records alone: when
    [process_stock] returns on a batch, it returns the same result on the
    batch with every record that fails validation taken out. *)
Theorem result_of_the_valid_subset products r :
  process_stock (VList products) = Return r ->
  process_stock (VList (valid_subset products)) = Return r.
Proof.
  intros Hr. apply process_stock_inv in Hr. destruct Hr as [Ha ->].
  rewrite (process_stock_intro _ (aborts_valid_subset _ Ha)).
  now rewrite result_of_valid_subset.
Qed.

Lemma result_of_the_valid_subset_witness :
  let products :=
    [StockData "p001" (F "100.00") 5; StockData "p002" (VStr "invalid") 3;
     VTuple [VStr "p003"; F "50.00"; VStr "text"]; StockData "p004" (F "75.00") 2] in
  valid_subset products
  = [StockData "p001" (F "100.00") 5; StockData "p004" (F "75.00") 2]
  /\ exists r,
       process_stock (VList products) = Return r
       /\ process_stock (VList (valid_subset products)) = Return r.
Proof.
  intros products. split; [reflexivity|].
  destruct (process_stock (VList products)) as [r|e] eqn:E;
    [|vm_compute in E; discriminate E].
  exists r. split; [reflexivity|].
  exact (result_of_the_valid_subset products r E).
Defined.

(* ------------------------------------------------------------------ *)
(** ** Prices and quantities *)

Lemma validate_price product_id price price' stock_quantity :
  py_float price = py_float price' ->
  validate (VTuple [product_id; price; stock_quantity])
  = validate (VTuple [product_id; price'; stock_quantity]).
Proof. intros H. unfold validate. now rewrite H. Qed.

(** X13: a record enters the result only through [float(price)]: two
    prices on which [float] agrees, such as a string and the float it
    parses to, give the same result in every batch on which
    [process_stock] returns with either. *)
Theorem price_enters_through_float product_id price price' stock_quantity
    before after r r' :
  py_float price = py_float price' ->
  process_stock
    (VList (before ++ VTuple [product_id; price; stock_quantity] :: after))
  = Return r ->
  process_stock
    (VList (before ++ VTuple [product_id; price'; stock_quantity] :: after))
  = Return r' ->
  r = r'.
Proof.
  intros H Hr Hr'.
  apply process_stock_inv in Hr. destruct Hr as [_ ->].
  apply process_stock_inv in Hr'. destruct Hr' as [_ ->].
  apply result_of_same_locals. now apply validate_price.
Qed.

Lemma price_enters_through_float_witness :
  let r := Build_StockResult (flit "299.97") [] ["p001"] [] in
  py_float (VStr " 99.99 ") = py_float (F "99.99")
  /\ process_stock (VList ([] ++ VTuple [VStr "p001"; VStr " 99.99 "; VInt 3] :: []))
     = Return r
  /\ process_stock (VList ([] ++ VTuple [VStr "p001"; F "99.99"; VInt 3] :: []))
     = Return r.
Proof.
  intros r.
  assert (process_stock
            (VList ([] ++ VTuple [VStr "p001"; VStr " 99.99 "; VInt 3] :: []))
          = Return r) as Hr by (vm_compute; reflexivity).
  split; [reflexivity|]. split; [exact Hr|].
  destruct (process_stock
              (VList ([] ++ VTuple [VStr "p001"; F "99.99"; VInt 3] :: [])))
    as [r'|e] eqn:E; [|vm_compute in E; discriminate E].
  f_equal. symmetry.
  exact (price_enters_through_float (VStr "p001") (VStr " 99.99 ") (F "99.99")
           (VInt 3) [] [] r r' eq_refl Hr E).
Defined.

(** X14: the category sequences do not depend on prices: replacing the
    price of a record by any other price that [float] accepts, whatever
    the two floats are, leaves the three sequences of the returned
    results as they are. *)
Theorem categories_ignore_prices product_id price price' f f' stock_quantity
    before after r r' :
  py_float price = Return f ->
  py_float price' = Return f' ->
  process_stock
    (VList (before ++ VTuple [product_id; price; stock_quantity] :: after))
  = Return r ->
  process_stock
    (VList (before ++ VTuple [product_id; price'; stock_quantity] :: after))
  = Return r' ->
  out_of_stock_items r = out_of_stock_items r'
  /\ low_stock_items r = low_stock_items r'
  /\ negative_stock_items r = negative_stock_items r'.
Proof.
  intros Hf Hf' Hr Hr'.
  apply process_stock_inv in Hr. destruct Hr as [_ ->].
  apply process_stock_inv in Hr'. destruct Hr' as [_ ->].
  unfold result_of.
  cbn [out_of_stock_items low_stock_items negative_stock_items].
  rewrite !category_ids_insert.
  assert (forall category,
            category_ids category [VTuple [product_id; price; stock_quantity]]
            = category_ids category [VTuple [product_id; price'; stock_quantity]])
    as H.
  { intros category. unfold category_ids, validate. cbn [flat_map].
    rewrite Hf, Hf'.
    destruct product_id as [ |? |? |? |id|? |? |? ]; try reflexivity.
    destruct (PyStr.truthy (PyStr.strip id)); [|reflexivity].
    now destruct (as_int stock_quantity). }
  now rewrite !H.
Qed.

Lemma categories_ignore_prices_witness :
  exists r r',
    process_stock (VList ([] ++ VTuple [VStr "p001"; VStr "nan"; VInt 0] :: []))
    = Return r
    /\ process_stock (VList ([] ++ VTuple [VStr "p001"; VInt 7; VInt 0] :: []))
       = Return r'
    /\ out_of_stock_items r = out_of_stock_items r'.
Proof.
  destruct (process_stock
              (VList ([] ++ VTuple [VStr "p001"; VStr "nan"; VInt 0] :: [])))
    as [r|e] eqn:E; [|vm_compute in E; discriminate E].
  destruct (process_stock
              (VList ([] ++ VTuple [VStr "p001"; VInt 7; VInt 0] :: [])))
    as [r'|e] eqn:E'; [|vm_compute in E'; discriminate E'].
  destruct (categories_ignore_prices (VStr "p001") (VStr "nan") (VInt 7)
              nan (flit "7") (VInt 0) [] [] r r' eq_refl eq_refl E E')
    as (Ho & _).
  exists r, r'. auto.
Defined.

Lemma clamped_finite_price f :
  is_nan f = false -> f <> inf ->
  is_finite (if lt f zero then zero else f) = true.
Proof.
  intros Hn Hi. destruct f as [[]|[]| |[] m e]; try reflexivity;
    try discriminate. now contradiction Hi.
Qed.

(** X15: negative stock is treated as zero for the value: when
    [process_stock] returns on a batch, a valid record of it whose
    quantity is zero or negative and whose price is neither NaN nor
    +infinity leaves [total_value] as it is without the record. *)
Theorem non_positive_stock_adds_nothing id price f stock_quantity quantity
    before after r :
  PyStr.truthy (PyStr.strip id) = true ->
  py_float price = Return f ->
  is_nan f = false ->
  f <> inf ->
  as_int stock_quantity = Some quantity ->
  quantity <= 0 ->
  process_stock
    (VList (before ++ VTuple [VStr id; price; stock_quantity] :: after))
  = Return r ->
  exists r',
    process_stock (VList (before ++ after)) = Return r'
    /\ total_value r = total_value r'.
Proof.
  intros Hid Hf Hn Hi Hq Hle Hr.
  apply process_stock_inv in Hr. destruct Hr as [Ha ->].
  exists (result_of (before ++ after)). split.
  - apply process_stock_intro. exact (aborts_without _ _ _ Ha).
  - eapply total_value_zero_term.
    + exact (validate_intro id price stock_quantity f quantity Hid Hf Hq).
    + now apply clamped_finite_price.
    + now right.
Qed.

Lemma non_positive_stock_adds_nothing_witness :
  let before := [StockData "p001" (F "100.00") 5] in
  let after := [StockData "p003" (F "50.00") 2] in
  exists r r',
    process_stock
      (VList (before ++ VTuple [VStr "p002"; VStr "19.99"; VInt (-4)] :: after))
    = Return r
    /\ process_stock (VList (before ++ after)) = Return r'
    /\ total_value r = total_value r'.
Proof.
  intros before after.
  destruct (process_stock
              (VList (before ++ VTuple [VStr "p002"; VStr "19.99"; VInt (-4)]
                        :: after)))
    as [r|e] eqn:E; [|vm_compute in E; discriminate E].
  assert (flit "19.99" <> inf) as Hi by discriminate.
  assert (-4 <= 0) as Hle by lia.
  destruct (non_positive_stock_adds_nothing "p002" (VStr "19.99") (flit "19.99")
              (VInt (-4)) (-4) before after r
              eq_refl eq_refl eq_refl Hi eq_refl Hle E) as (r' & Hr' & Ht).
  exists r, r'. auto.
Defined.

(* ------------------------------------------------------------------ *)
(** ** The legacy wrapper *)

(** X16: [process_stock_legacy] raises TypeError exactly when its
    argument is not a list; when it returns on a list, it returns the
    rounded total together with the identifiers of the valid records with
    quantity 0, in input order. *)
Theorem process_stock_legacy_behaviour v :
  (process_stock_legacy v = Raised TypeError <-> is_list v = false)
  /\ (forall products pair,
        v = VList products ->
        process_stock_legacy v = Return pair ->
        pair = (round2 (sum_from zero products),
                matching is_out_of_stock (valid_records products))).
Proof.
  unfold process_stock_legacy.
  destruct v as [ |? |? |? |? |? |products|? ];
    try (split; [split; reflexivity|discriminate]).
  rewrite process_stock_cases.
  destruct (existsb aborts products).
  - split; [split; discriminate|]. discriminate.
  - split; [split; discriminate|].
    intros products' pair E Hp. inversion E; subst products'.
    inversion Hp. unfold result_of. cbn [total_value out_of_stock_items].
    now rewrite category_ids_matching.
Qed.

(* ------------------------------------------------------------------ *)
(** ** Reordering, and the warnings for negative stock *)

Lemma aborts_permutation l l' :
  Permutation l l' -> existsb aborts l = existsb aborts l'.
Proof.
  induction 1 as [|x l l' _ IH|x y l|l l' l'' _ IH1 _ IH2]; cbn [existsb].
  - reflexivity.
  - now rewrite IH.
  - now destruct (aborts x), (aborts y).
  - congruence.
Qed.

(** X17: reordering the batch only reorders the sequences: when
    [process_stock] returns on a batch, it returns on every permutation
    of it, and the category sequences of the two results are permutations
    of each other. *)
Theorem categories_of_permutation l l' r :
  Permutation l l' ->
  process_stock (VList l) = Return r ->
  exists r',
    process_stock (VList l') = Return r'
    /\ Permutation (out_of_stock_items r) (out_of_stock_items r')
    /\ Permutation (low_stock_items r) (low_stock_items r')
    /\ Permutation (negative_stock_items r) (negative_stock_items r').
Proof.
  intros H Hr. apply process_stock_inv in Hr. destruct Hr as [Ha ->].
  rewrite (aborts_permutation l l' H) in Ha.
  exists (result_of l'). split; [now apply process_stock_intro|].
  unfold result_of.
  cbn [out_of_stock_items low_stock_items negative_stock_items].
  unfold category_ids. repeat split; apply Permutation_flat_map; exact H.
Qed.

Lemma categories_of_permutation_witness :
  let l :=
    [StockData "p001" (F "100.00") 0; StockData "p002" (F "50.00") 3;
     StockData "p003" (F "1.0") 0] in
  let l' :=
    [StockData "p003" (F "1.0") 0; StockData "p002" (F "50.00") 3;
     StockData "p001" (F "100.00") 0] in
  Permutation l l'
  /\ exists r r',
       process_stock (VList l) = Return r
       /\ process_stock (VList l') = Return r'
       /\ Permutation (out_of_stock_items r) (out_of_stock_items r').
Proof.
  intros l l'.
  assert (Permutation l l') as H.
  { eapply perm_trans; [apply perm_swap|].
    eapply perm_trans; [apply perm_skip, perm_swap|]. apply perm_swap. }
  split; [exact H|].
  destruct (process_stock (VList l)) as [r|e] eqn:E;
    [|vm_compute in E; discriminate E].
  destruct (categories_of_permutation l l' r H E) as (r' & Hr' & Ho & _).
  exists r, r'. auto.
Defined.

Lemma count_format_app fmt l1 l2 :
  count_format fmt (l1 ++ l2) = (count_format fmt l1 + count_format fmt l2)%nat.
Proof. unfold count_format. now rewrite filter_app, length_app. Qed.

Ltac warned := solve [cbn; reflexivity].

Lemma diagnostics_negative_stock i product :
  count_format "Negative stock quantity for {product_id}: {stock_quantity}"
    (diagnostics i product)
  = List.length (category_ids is_negative_stock [product]).
Proof.
  unfold diagnostics, Frame.init, category_ids, validate, is_negative_stock.
  cbn [flat_map]. rewrite app_nil_r.
  body_cases warned.
Qed.

Lemma batch_diagnostics_negative_stock products : forall i,
  count_format "Negative stock quantity for {product_id}: {stock_quantity}"
    (batch_diagnostics i products)
  = List.length (category_ids is_negative_stock products).
Proof.
  induction products as [|x xs IH]; intros i; [reflexivity|].
  cbn [batch_diagnostics]. change (x :: xs) with ([x] ++ xs).
  now rewrite count_format_app, category_ids_app, length_app, IH,
    diagnostics_negative_stock.
Qed.

(** X18: the warning for negative stock is emitted once for each entry
    of [negative_stock_items]: when the call returns, the log holds as
    many records with the text of line 121 as the returned sequence has
    identifiers. *)
Theorem one_warning_per_negative_stock_item products r log :
  run_process_stock printable (VList products) = (Return r, log) ->
  count_format "Negative stock quantity for {product_id}: {stock_quantity}" log
  = List.length (negative_stock_items r).
Proof.
  intros H. apply run_process_stock_inv in H. destruct H as (_ & -> & ->).
  unfold log_of, result_of. cbn [negative_stock_items].
  change (?a :: ?l) with ([a] ++ l).
  rewrite !count_format_app, batch_diagnostics_negative_stock.
  cbn. lia.
Qed.

Lemma one_warning_per_negative_stock_item_witness :
  let products :=
    [StockData "p001" (F "100.00") (-5); StockData "p002" (F "50.00") 3;
     StockData "p003" (F "200.00") (-2)] in
  exists r log,
    run_process_stock printable (VList products) = (Return r, log)
    /\ count_format "Negative stock quantity for {product_id}: {stock_quantity}"
         log = 2%nat.
Proof.
  intros products.
  destruct (run_process_stock printable (VList products)) as [[r|e] log] eqn:E;
    [|vm_compute in E; discriminate E].
  pose proof (one_warning_per_negative_stock_item products r log E) as H.
  exists r, log. split; [reflexivity|]. rewrite H.
  vm_compute in E. inversion E. reflexivity.
Defined.

(* ------------------------------------------------------------------ *)
(** ** Records that do not render *)

Lemma aborts_unprintable x :
  (forall a b c, x <> VTuple [a; b; c]) ->
  printable x = false -> aborts x = true.
Proof.
  intros H Hp. unfold aborts, Frame.init.
  destruct x as [ |? |? |? |? |items|items|? ]; try discriminate Hp.
  - unfold_body. cbn -[printable]. now rewrite Hp.
  - destruct items as [|a [|b [|c [|d items]]]];
      try (unfold_body; cbn -[printable]; now rewrite Hp).
    exfalso. exact (H a b c eq_refl).
  - unfold_body. cbn -[printable]. now rewrite Hp.
Qed.

(** X20: a record that is not a 3-tuple and holds an integer of more
    than 4300 digits makes [process_stock] raise wherever it stands in
    the list: the f-string of the warning of line 93 raises, and so does
    the f-string of the handler of line 141. *)
Theorem unprintable_record_raises x before after :
  (forall a b c, x <> VTuple [a; b; c]) ->
  printable x = false ->
  exists e, process_stock (VList (before ++ x :: after)) = Raised e.
Proof.
  intros H Hp. exists ValueError.
  rewrite process_stock_cases, aborts_app. cbn [existsb].
  rewrite (aborts_unprintable x H Hp).
  now rewrite orb_true_l, orb_true_r.
Qed.

Lemma unprintable_record_raises_witness :
  printable (VList [VStr "p001"; VInt max_str_bound]) = false
  /\ exists e,
       process_stock
         (VList ([StockData "p001" (F "100.00") 5]
                   ++ VList [VStr "p001"; VInt max_str_bound]
                   :: [StockData "p003" (F "50.00") 0]))
       = Raised e.
Proof.
  assert (printable (VList [VStr "p001"; VInt max_str_bound]) = false) as Hp
    by (vm_compute; reflexivity).
  split; [exact Hp|].
  apply unprintable_record_raises; [discriminate|exact Hp].
Defined.
